(** * CUDA-wrappers: the NVRTC and NVML wrapper headers

    A shallow embedding of [include/nvrtc.hpp], [include/cudawrappers/nvml.hpp]
    and of the parts of [tests/test_vector_add.cpp] that exercise them.

    The wrappers are call-through code: every operation forwards to a native
    vendor library and turns the returned status code into a C++ exception.
    The vendor libraries are closed, so a wrapper is embedded as a finite
    program over the native calls it issues (type [M]); [run] executes such a
    program against an arbitrary behaviour of the native side and records the
    calls made together with what the library answered. *)

From Stdlib Require Import ZArith NArith List String Ascii Bool Lia.
Import ListNotations.
Open Scope Z_scope.

(** ** Vendor types

    The status enumerations are C enums of the vendor headers; they are kept
    as integers with the enumerators the wrappers compare against. *)

Definition nvrtcResult := Z.
Definition nvmlReturn_t := Z.
Definition CUresult := Z.

Definition NVRTC_SUCCESS : nvrtcResult := 0.
Definition NVRTC_ERROR_COMPILATION : nvrtcResult := 6.
Definition NVML_SUCCESS : nvmlReturn_t := 0.
Definition NVML_ERROR_INVALID_ARGUMENT : nvmlReturn_t := 2.
Definition NVML_ERROR_NOT_FOUND : nvmlReturn_t := 6.
Definition CUDA_SUCCESS : CUresult := 0.

(** Opaque native handles (pointer values); [0] is the null handle that
    [nvrtcProgram program{}] starts from. *)
Definition nvrtcProgram := Z.
Definition nvmlDevice_t := Z.
Definition CUdevice := Z.

(** [static_cast<int>] of a [size_t]: reduction to 32 bits, two's complement. *)
Definition static_cast_int (z : Z) : Z :=
  (z + 2 ^ 31) mod 2 ^ 32 - 2 ^ 31.

(** [std::string::c_str]: what a callee reading a NUL-terminated [const char*]
    sees of the string. *)
Fixpoint c_str (s : string) : string :=
  match s with
  | EmptyString => EmptyString
  | String c r => if Ascii.eqb c zero then EmptyString else String c (c_str r)
  end.

(** A [const char *const *] argument: a null pointer or an array of C strings. *)
Inductive c_array : Type :=
| nullptr
| data (a : list string).

(** ** The error classes

    [nvrtc::Error] and [nvml::Error] hold the status they were built from in
    [_result]; the conversion operator gives it back. *)

Record nvrtc_Error : Type := mk_nvrtc_Error { nvrtc_result : nvrtcResult }.
Record nvml_Error : Type := mk_nvml_Error { nvml_result : nvmlReturn_t }.
Record cu_Error : Type := mk_cu_Error { cu_result : CUresult }.

(** [operator nvrtcResult() const { return _result; }] *)
Definition operator_nvrtcResult (e : nvrtc_Error) : nvrtcResult := nvrtc_result e.

(** [operator nvmlReturn_t() const { return _result; }] *)
Definition operator_nvmlReturn_t (e : nvml_Error) : nvmlReturn_t := nvml_result e.

(** What can be thrown out of a wrapper operation: the errors of the three
    wrapper families, and [std::ios_base::failure], which the stream buffer
    of a [std::ifstream] throws when a read fails. *)
Inductive exn : Type :=
| ThrowNvrtc (e : nvrtc_Error)
| ThrowNvml (e : nvml_Error)
| ThrowCu (e : cu_Error)
| ThrowIosFailure.

Section ErrorStrings.
(** The vendors' string-lookup functions. *)
Variable nvmlErrorString : nvmlReturn_t -> string.
Variable nvrtcGetErrorString : nvrtcResult -> string.

(** [const char* what() const noexcept { return nvmlErrorString(_result); }] *)
Definition nvml_Error_what (e : nvml_Error) : string :=
  nvmlErrorString (nvml_result e).

(** Modelled from the spec: the body of [nvrtc::Error::what], which
    [nvrtc.hpp] only declares.  Section 4.1: the error exposes "a
    human-readable message obtained from the vendor's own string-lookup
    function". *)
Definition nvrtc_Error_what (e : nvrtc_Error) : string :=
  nvrtcGetErrorString (nvrtc_result e).
End ErrorStrings.

(** ** Native calls

    One constructor per native entry point the wrappers call, indexed by the
    type of what comes back: the returned status together with the value the
    library left in the out-parameter, if the call has one. *)

Definition size_t := N.
Definition CUdeviceptr := Z.
Definition CUmemorytype := Z.

(** [nvmlFieldValue_t], a vendor struct the wrapper only passes along. *)
Definition nvmlFieldValue_t := Z.

(** Implicit conversion of an [int] argument to an [unsigned int] parameter. *)
Definition to_unsigned_int (z : Z) : Z := z mod 2 ^ 32.

(** What opening a [std::ifstream] on a file name and draining it through
    [std::istreambuf_iterator] comes to.  A stream that could not be opened has
    no open buffer and yields no character.  A file that opened is read to its
    end, unless a read fails (the name is a directory, the device reports an
    error): the buffer then throws [std::ios_base::failure], which the
    iterator, reading the buffer directly, lets through. *)
Inductive ifstream_result : Type :=
| not_open
| drained (text : string)
| read_failure.

Inductive call : Type -> Type :=
(* nvrtc.h *)
| nvrtcCreateProgram (src name : string) (numHeaders : Z)
    (headers includeNames : c_array) : call (nvrtcResult * nvrtcProgram)
| nvrtcDestroyProgram (prog : nvrtcProgram) : call (nvrtcResult * nvrtcProgram)
| nvrtcCompileProgram (prog : nvrtcProgram) (numOptions : Z)
    (options : c_array) : call nvrtcResult
| nvrtcGetPTXSize (prog : nvrtcProgram) : call (nvrtcResult * size_t)
| nvrtcGetPTX (prog : nvrtcProgram) : call (nvrtcResult * list ascii)
| nvrtcGetCUBINSize (prog : nvrtcProgram) : call (nvrtcResult * size_t)
| nvrtcGetCUBIN (prog : nvrtcProgram) : call (nvrtcResult * list ascii)
| nvrtcGetProgramLogSize (prog : nvrtcProgram) : call (nvrtcResult * size_t)
| nvrtcGetProgramLog (prog : nvrtcProgram) : call (nvrtcResult * list ascii)
(* nvml.h *)
| nvmlInit : call nvmlReturn_t
| nvmlShutdown : call nvmlReturn_t
| nvmlDeviceGetHandleByIndex (index : Z) : call (nvmlReturn_t * nvmlDevice_t)
| nvmlDeviceGetHandleByUUID (uuid : string) : call (nvmlReturn_t * nvmlDevice_t)
| nvmlDeviceGetFieldValues (device : nvmlDevice_t) (valuesCount : Z)
    (values : list nvmlFieldValue_t) : call (nvmlReturn_t * list nvmlFieldValue_t)
(* cuda.h, reached through cu.hpp: the identifier query behind
   [cu::Device::getUuid], and the native allocation call of section 4.4 with
   the memory type, the size and the flags it is made for *)
| cuDeviceGetUuid (dev : CUdevice) : call (CUresult * string)
| cuMemoryAllocation (type : CUmemorytype) (bytesize : size_t) (flags : Z) :
    call (CUresult * CUdeviceptr)
(* the C++ runtime: opening and draining a [std::ifstream], and
   [std::cerr <<] *)
| ifstream_contents (filename : string) : call ifstream_result
| cerr_write (text : string) : call unit.

(** ** Wrapper programs

    A wrapper operation returns ([Ret]), throws ([Throw]), ends the process
    through [std::terminate] ([Terminate]) or calls into a native library and
    goes on with what came back ([Vis]). *)

Inductive M (A : Type) : Type :=
| Ret (a : A)
| Throw (e : exn)
| Terminate
| Vis (X : Type) (c : call X) (k : X -> M A).

Arguments Ret {A} a.
Arguments Throw {A} e.
Arguments Terminate {A}.
Arguments Vis {A X} c k.

Fixpoint bind {A B : Type} (m : M A) (f : A -> M B) : M B :=
  match m with
  | Ret a => f a
  | Throw e => Throw e
  | Terminate => Terminate
  | Vis c k => Vis c (fun x => bind (k x) f)
  end.

(** A native call on its own. *)
Definition native_call {X : Type} (c : call X) : M X := Vis c Ret.

(** [try { m } catch (E &e) { h e }], where [h] returns [None] on the
    exceptions the handler's type does not match. *)
Fixpoint try_catch {A : Type} (m : M A) (h : exn -> option (M A)) : M A :=
  match m with
  | Ret a => Ret a
  | Throw e => match h e with Some handler => handler | None => Throw e end
  | Terminate => Terminate
  | Vis c k => Vis c (fun x => try_catch (k x) h)
  end.

(** A function that is [noexcept]: an exception leaving it calls
    [std::terminate].  Destructors are [noexcept] unless declared otherwise. *)
Fixpoint noexcept {A : Type} (m : M A) : M A :=
  match m with
  | Ret a => Ret a
  | Throw _ => Terminate
  | Terminate => Terminate
  | Vis c k => Vis c (fun x => noexcept (k x))
  end.

(** What happens at the end of a block once its body [m] is over: the
    destructor [fin] of the block's object runs whether the body returned or
    threw, and the body's result or exception goes on afterwards. *)
Fixpoint unwind {A : Type} (m : M A) (fin : M unit) : M A :=
  match m with
  | Ret a => bind fin (fun _ => Ret a)
  | Throw e => bind fin (fun _ => Throw e)
  | Terminate => Terminate
  | Vis c k => Vis c (fun x => unwind (k x) fin)
  end.

(** A block that declares one object of automatic storage duration.  When
    the constructor throws there is no object, so no destructor runs. *)
Definition scoped {T A : Type} (ctor : M T) (dtor : T -> M unit)
    (body : T -> M A) : M A :=
  bind ctor (fun obj => unwind (body obj) (dtor obj)).

Declare Scope wrapper_scope.
Delimit Scope wrapper_scope with wrapper.
Notation "x <- m ;; k" := (bind m (fun x => k))
  (at level 100, m at next level, right associativity) : wrapper_scope.
Notation "' p <- m ;; k" := (bind m (fun p => k))
  (at level 100, p pattern, m at next level, right associativity) : wrapper_scope.
Notation "m ;;; k" := (bind m (fun _ => k))
  (at level 100, right associativity) : wrapper_scope.
Open Scope wrapper_scope.

(** ** Running a wrapper against a native side

    The native side is any function from a call and the state of the world to
    an answer and a new state.  A run yields the calls made in order, each
    with its answer, the way the operation ended and the final world. *)

Record event : Type := Event { ev_type : Type; ev_call : call ev_type; ev_reply : ev_type }.
Arguments Event {ev_type} ev_call ev_reply.

Inductive outcome (A : Type) : Type :=
| Returned (a : A)
| Raised (e : exn)
| Terminated.
Arguments Returned {A} a.
Arguments Raised {A} e.
Arguments Terminated {A}.

Definition native (W : Type) : Type := forall X : Type, call X -> W -> X * W.

Fixpoint run {W A : Type} (lib : native W) (m : M A) (w : W) :
  list event * outcome A * W :=
  match m with
  | Ret a => ([], Returned a, w)
  | Throw e => ([], Raised e, w)
  | Terminate => ([], Terminated, w)
  | Vis c k =>
      let (x, w1) := lib _ c w in
      let '(t, o, w2) := run lib (k x) w1 in
      (Event c x :: t, o, w2)
  end.

Definition trace_of {W A : Type} (r : list event * outcome A * W) : list event :=
  fst (fst r).
Definition outcome_of {W A : Type} (r : list event * outcome A * W) : outcome A :=
  snd (fst r).
Definition world_of {W A : Type} (r : list event * outcome A * W) : W := snd r.

(** ** The check functions *)

(** [if (result != NVRTC_SUCCESS) throw Error(result);] *)
Definition checkNvrtcCall (result : nvrtcResult) : M unit :=
  if negb (result =? NVRTC_SUCCESS) then Throw (ThrowNvrtc (mk_nvrtc_Error result))
  else Ret tt.

(** [if (result != NVML_SUCCESS) throw Error(result);] *)
Definition checkNvmlCall (result : nvmlReturn_t) : M unit :=
  if negb (result =? NVML_SUCCESS) then Throw (ThrowNvml (mk_nvml_Error result))
  else Ret tt.

(** ** Buffers

    [std::string] and [std::vector<char>] as the query operations use them:
    default construction, [resize], and the address of element 0 handed to
    the native library to write through. *)

(** [resize(n)]: cut to [n] elements or pad with value-initialised ones. *)
Definition resize_list {A : Type} (d : A) (l : list A) (n : nat) : list A :=
  (firstn n l ++ repeat d (n - List.length l))%list.

(** The library stores [written] from element 0 on; the container's size is
    not changed by a store through a raw pointer. *)
Definition store_list {A : Type} (l written : list A) : list A :=
  (firstn (List.length l) written ++ skipn (List.length written) l)%list.

Class Buffer (B : Type) : Type := {
  buf_empty : B;
  buf_resize : B -> nat -> B;
  buf_store : B -> list ascii -> B;
  buf_size : B -> nat
}.

Definition std_vector_char := list ascii.

#[export] Instance vector_Buffer : Buffer std_vector_char := {
  buf_empty := [];
  buf_resize := resize_list zero;
  buf_store := store_list;
  buf_size := @List.length ascii
}.

#[export] Instance string_Buffer : Buffer string := {
  buf_empty := EmptyString;
  buf_resize s n := string_of_list_ascii (resize_list zero (list_ascii_of_string s) n);
  buf_store s written :=
    string_of_list_ascii (store_list (list_ascii_of_string s) written);
  buf_size := String.length
}.

(** ** [namespace nvrtc] *)

Module nvrtc.

(** [class Program], with its one member [nvrtcProgram program{}]. *)
Record Program : Type := mk_Program { program : nvrtcProgram }.

(** [Program(const std::string &src, const std::string &name,
             const std::vector<std::string> &headers,
             const std::vector<std::string> &includeNames)] *)
Definition Program_from_source (src name : string)
    (headers includeNames : list string) : M Program :=
  let c_headers := map c_str headers in
  let c_includeNames := map c_str includeNames in
  '(result, prog) <- native_call
      (nvrtcCreateProgram (c_str src) (c_str name)
         (static_cast_int (Z.of_nat (List.length c_headers)))
         (data c_headers) (data c_includeNames)) ;;
  (checkNvrtcCall result ;;;
   Ret (mk_Program prog)).

(** [explicit Program(const std::string &filename)] *)
Definition Program_from_file (filename : string) : M Program :=
  ifs <- native_call (ifstream_contents filename) ;;
  source <- match ifs with
            | not_open => Ret EmptyString
            | drained text => Ret text
            | read_failure => Throw ThrowIosFailure
            end ;;
  '(result, prog) <- native_call
      (nvrtcCreateProgram (c_str source) (c_str filename) 0 nullptr nullptr) ;;
  (checkNvrtcCall result ;;;
   Ret (mk_Program prog)).

(** [~Program() { checkNvrtcCall(nvrtcDestroyProgram(&program)); }] *)
Definition Program_destroy (self : Program) : M unit :=
  noexcept ('(result, _) <- native_call (nvrtcDestroyProgram (program self)) ;;
            checkNvrtcCall result).

(** [void compile(const std::vector<std::string> &options)] *)
Definition compile (self : Program) (options : list string) : M unit :=
  let c_options := map c_str options in
  result <- native_call
      (nvrtcCompileProgram (program self)
         (static_cast_int (Z.of_nat (List.length c_options))) (data c_options)) ;;
  checkNvrtcCall result.

(** [std::string getPTX()] *)
Definition getPTX (self : Program) : M string :=
  let ptx : string := buf_empty in
  '(result, size) <- native_call (nvrtcGetPTXSize (program self)) ;;
  (checkNvrtcCall result ;;;
   let ptx := buf_resize ptx (N.to_nat size) in
   '(result, written) <- native_call (nvrtcGetPTX (program self)) ;;
   let ptx := buf_store ptx written in
   (checkNvrtcCall result ;;;
    Ret ptx)).

(** [std::vector<char> getCUBIN()], compiled in when [CUDA_VERSION >= 11020]. *)
Definition getCUBIN (self : Program) : M std_vector_char :=
  let cubin : std_vector_char := buf_empty in
  '(result, size) <- native_call (nvrtcGetCUBINSize (program self)) ;;
  (checkNvrtcCall result ;;;
   let cubin := buf_resize cubin (N.to_nat size) in
   '(result, written) <- native_call (nvrtcGetCUBIN (program self)) ;;
   let cubin := buf_store cubin written in
   (checkNvrtcCall result ;;;
    Ret cubin)).

(** [std::string getLog()] *)
Definition getLog (self : Program) : M string :=
  let log : string := buf_empty in
  '(result, size) <- native_call (nvrtcGetProgramLogSize (program self)) ;;
  (checkNvrtcCall result ;;;
   let log := buf_resize log (N.to_nat size) in
   '(result, written) <- native_call (nvrtcGetProgramLog (program self)) ;;
   let log := buf_store log written in
   (checkNvrtcCall result ;;;
    Ret log)).

End nvrtc.

(** ** [namespace cu]

    [cudawrappers/cu.hpp] holds the driver wrappers.  The parts the telemetry
    wrapper and the tests reach are given here. *)

Module cu.

Definition CU_MEMORYTYPE_HOST : CUmemorytype := 1.
Definition CU_MEMORYTYPE_DEVICE : CUmemorytype := 2.
Definition CU_MEMORYTYPE_ARRAY : CUmemorytype := 3.
Definition CU_MEMORYTYPE_UNIFIED : CUmemorytype := 4.
Definition CU_MEM_ATTACH_GLOBAL : Z := 1.
Definition CU_MEM_ATTACH_HOST : Z := 2.

(** Modelled from the spec: [cu::checkCudaCall], the check function of the
    driver family.  Section 4.1: "on success-code it is a no-op, on any
    other code it raises a typed error object carrying the original status
    code". *)
Definition checkCudaCall (result : CUresult) : M unit :=
  if negb (result =? CUDA_SUCCESS) then Throw (ThrowCu (mk_cu_Error result))
  else Ret tt.

Record Device : Type := mk_Device { device : CUdevice }.

(** Modelled from the spec: [cu::Device::getUuid].  Section 4.2: a public
    operation "forwards its arguments plus the held handle to one native API
    call, applies the error-translation facade, and returns the native
    result converted to an idiomatic value". *)
Definition getUuid (self : Device) : M string :=
  '(result, uuid) <- native_call (cuDeviceGetUuid (device self)) ;;
  (checkCudaCall result ;;;
   Ret uuid).

Record DeviceMemory : Type := mk_DeviceMemory { dptr : CUdeviceptr }.

Section DeviceMemory.
(** The status carried by the error of a rejected argument. *)
Variable rejected : CUresult.

(** Modelled from the spec: the constructor of [cu::DeviceMemory].
    Section 4.4: it "accepts only a restricted subset of native
    memory-type tags (device-resident or unified/managed); passing a
    disallowed tag (e.g., array-backed or host-backed) raises an error
    before any native allocation call is attempted.  Additionally, flag
    arguments are only accepted in combination with the unified/managed
    memory type; supplying flags together with the device-resident type
    raises an error."  The allocation is a native call and goes through
    the check function (section 4.1). *)
Definition DeviceMemory_new (size : size_t) (type : CUmemorytype)
    (flags : Z) : M DeviceMemory :=
  if type =? CU_MEMORYTYPE_DEVICE then
    if negb (flags =? 0) then Throw (ThrowCu (mk_cu_Error rejected))
    else
      '(result, ptr) <- native_call (cuMemoryAllocation type size flags) ;;
      (checkCudaCall result ;;;
       Ret (mk_DeviceMemory ptr))
  else if type =? CU_MEMORYTYPE_UNIFIED then
    '(result, ptr) <- native_call (cuMemoryAllocation type size flags) ;;
    (checkCudaCall result ;;;
     Ret (mk_DeviceMemory ptr))
  else Throw (ThrowCu (mk_cu_Error rejected)).
End DeviceMemory.

End cu.

(** ** [namespace nvml] *)

Module nvml.

(** [class Device], with its one member [nvmlDevice_t device_]. *)
Record Device : Type := mk_Device { device_ : nvmlDevice_t }.

(** [Device(int index)] *)
Definition Device_from_index (index : Z) : M Device :=
  result <- native_call nvmlInit ;;
  (checkNvmlCall result ;;;
   '(result, dev) <- native_call
       (nvmlDeviceGetHandleByIndex (to_unsigned_int index)) ;;
   (checkNvmlCall result ;;;
    Ret (mk_Device dev))).

(** [Device(cu::Device& device)]; the status of the lookup is dropped. *)
Definition Device_from_cu_Device (device : cu.Device) : M Device :=
  result <- native_call nvmlInit ;;
  (checkNvmlCall result ;;;
   uuid <- cu.getUuid device ;;
   '(_, dev) <- native_call (nvmlDeviceGetHandleByUUID (c_str uuid)) ;;
   Ret (mk_Device dev)).

(** [~Device() { checkNvmlCall(nvmlShutdown()); }] *)
Definition Device_destroy (self : Device) : M unit :=
  noexcept (result <- native_call nvmlShutdown ;;
            checkNvmlCall result).

(** [void getFieldValues(int valuesCount, nvmlFieldValue_t* values)];
    the array is updated in place, so its new contents are returned. *)
Definition getFieldValues (self : Device) (valuesCount : Z)
    (values : list nvmlFieldValue_t) : M (list nvmlFieldValue_t) :=
  '(result, values') <- native_call
      (nvmlDeviceGetFieldValues (device_ self) valuesCount values) ;;
  (checkNvmlCall result ;;;
   Ret values').

End nvml.

(** ** [tests/test_vector_add.cpp] *)

Module test_vector_add.

(** [try { program.compile(options); }
     catch (nvrtc::Error &error) { std::cerr << program.getLog(); throw; }] *)
Definition compile_or_log (program : nvrtc.Program) (options : list string) :
    M unit :=
  try_catch (nvrtc.compile program options)
    (fun error =>
       match error with
       | ThrowNvrtc _ =>
           Some (log <- nvrtc.getLog program ;;
                 (native_call (cerr_write log) ;;;
                  Throw error))
       | _ => None
       end).

End test_vector_add.

(** ** Reading a run *)

Definition nvrtc_failure (result : nvrtcResult) : option exn :=
  if negb (result =? NVRTC_SUCCESS) then Some (ThrowNvrtc (mk_nvrtc_Error result))
  else None.

Definition nvml_failure (result : nvmlReturn_t) : option exn :=
  if negb (result =? NVML_SUCCESS) then Some (ThrowNvml (mk_nvml_Error result))
  else None.

Definition cu_failure (result : CUresult) : option exn :=
  if negb (result =? CUDA_SUCCESS) then Some (ThrowCu (mk_cu_Error result))
  else None.

(** The error a native answer stands for: none when the status is the
    family's success code or the call has no status. *)
Definition reported_failure {X : Type} (c : call X) : X -> option exn :=
  match c in call X return X -> option exn with
  | nvrtcCreateProgram _ _ _ _ _ => fun x => nvrtc_failure (fst x)
  | nvrtcDestroyProgram _ => fun x => nvrtc_failure (fst x)
  | nvrtcCompileProgram _ _ _ => fun x => nvrtc_failure x
  | nvrtcGetPTXSize _ => fun x => nvrtc_failure (fst x)
  | nvrtcGetPTX _ => fun x => nvrtc_failure (fst x)
  | nvrtcGetCUBINSize _ => fun x => nvrtc_failure (fst x)
  | nvrtcGetCUBIN _ => fun x => nvrtc_failure (fst x)
  | nvrtcGetProgramLogSize _ => fun x => nvrtc_failure (fst x)
  | nvrtcGetProgramLog _ => fun x => nvrtc_failure (fst x)
  | nvmlInit => fun x => nvml_failure x
  | nvmlShutdown => fun x => nvml_failure x
  | nvmlDeviceGetHandleByIndex _ => fun x => nvml_failure (fst x)
  | nvmlDeviceGetHandleByUUID _ => fun x => nvml_failure (fst x)
  | nvmlDeviceGetFieldValues _ _ _ => fun x => nvml_failure (fst x)
  | cuDeviceGetUuid _ => fun x => cu_failure (fst x)
  | cuMemoryAllocation _ _ _ => fun x => cu_failure (fst x)
  | ifstream_contents _ => fun _ => None
  | cerr_write _ => fun _ => None
  end.

Definition ev_failure (e : event) : option exn :=
  reported_failure (ev_call e) (ev_reply e).

(** An operation passes every status through its check function when, on
    every native side, a non-success status in its run comes out as the
    thrown error of that status. *)
Definition checks_every_status {A : Type} (m : M A) : Prop :=
  forall (W : Type) (lib : native W) (w : W) (e : event) (x : exn),
    In e (trace_of (run lib m w)) ->
    ev_failure e = Some x ->
    outcome_of (run lib m w) = Raised x.

(** Acquire calls are the ones the constructors make and the destructors
    undo: a program created, the telemetry library initialised, device memory
    allocated.  Only a call that reported success acquired something. *)
Definition acquired {X : Type} (c : call X) : X -> bool :=
  match c in call X return X -> bool with
  | nvrtcCreateProgram _ _ _ _ _ => fun x => fst x =? NVRTC_SUCCESS
  | nvmlInit => fun x => x =? NVML_SUCCESS
  | cuMemoryAllocation _ _ _ => fun x => fst x =? CUDA_SUCCESS
  | _ => fun _ => false
  end.

Definition released {X : Type} (c : call X) : X -> bool :=
  match c in call X return X -> bool with
  | nvrtcDestroyProgram _ => fun x => fst x =? NVRTC_SUCCESS
  | nvmlShutdown => fun x => x =? NVML_SUCCESS
  | _ => fun _ => false
  end.

(** Acquisitions of a run that no release call of the run has undone. *)
Fixpoint outstanding (t : list event) : Z :=
  match t with
  | [] => 0
  | e :: t' =>
      (if acquired (ev_call e) (ev_reply e) then 1 else 0)
      - (if released (ev_call e) (ev_reply e) then 1 else 0)
      + outstanding t'
  end.

Definition is_allocation (e : event) : bool :=
  match ev_call e with
  | cuMemoryAllocation _ _ _ => true
  | _ => false
  end.

(** A constructor leaves nothing behind on failure when, on every native
    side, a run that throws has released whatever it acquired. *)
Definition leaves_nothing_on_failure {A : Type} (ctor : M A) : Prop :=
  forall (W : Type) (lib : native W) (w : W) (x : exn),
    outcome_of (run lib ctor w) = Raised x ->
    outstanding (trace_of (run lib ctor w)) = 0.

(** The native call [compile] makes for a list of options. *)
Definition compile_call (self : nvrtc.Program) (options : list string) :
    call nvrtcResult :=
  nvrtcCompileProgram (nvrtc.program self)
    (static_cast_int (Z.of_nat (List.length (map c_str options))))
    (data (map c_str options)).

(** An operation throws only what the native side reported when, on every
    native side, an exception it ends with is the error of a non-success
    status some call of the run answered, and it never ends the process. *)
Definition throws_only_reported {A : Type} (m : M A) : Prop :=
  forall (W : Type) (lib : native W) (w : W),
    match outcome_of (run lib m w) with
    | Returned _ => True
    | Raised x =>
        exists e : event, In e (trace_of (run lib m w)) /\ ev_failure e = Some x
    | Terminated => False
    end.

(** [std::string] holding a NUL character between two texts. *)
Definition with_NUL (before after : string) : string :=
  (before ++ String zero after)%string.

(** ** The two-call pattern, as the specification words it

    Section 4.2: "a length-prefixed buffer is materialized by querying the size
    first, allocating a buffer of that size, then filling it".  Both calls go
    through the check function. *)
Definition size_then_fetch {B : Type} `{Buffer B}
    (query_size : call (nvrtcResult * size_t))
    (fetch : call (nvrtcResult * list ascii)) : M B :=
  '(status, size) <- native_call query_size ;;
  (checkNvrtcCall status ;;;
   let buffer := buf_resize buf_empty (N.to_nat size) in
   '(status, contents) <- native_call fetch ;;
   (checkNvrtcCall status ;;;
    Ret (buf_store buffer contents))).

(** What a run of the pattern must look like on a native side [lib] started
    in world [w]. *)
Definition two_call_run {W B : Type} `{Buffer B} (lib : native W)
    (query_size : call (nvrtcResult * size_t))
    (fetch : call (nvrtcResult * list ascii)) (w : W)
    (r : list event * outcome B * W) : Prop :=
  let '(s1, size, w1) := lib _ query_size w in
  let '(s2, contents, w2) := lib _ fetch w1 in
  if negb (s1 =? NVRTC_SUCCESS) then
    r = ([Event query_size (s1, size)],
         Raised (ThrowNvrtc (mk_nvrtc_Error s1)), w1)
  else if negb (s2 =? NVRTC_SUCCESS) then
    r = ([Event query_size (s1, size); Event fetch (s2, contents)],
         Raised (ThrowNvrtc (mk_nvrtc_Error s2)), w2)
  else
    exists value : B,
      r = ([Event query_size (s1, size); Event fetch (s2, contents)],
           Returned value, w2)
      /\ N.of_nat (buf_size value) = size.

(** ** Scripted native sides

    A native side that answers from a fixed script; its world is the number
    of initialisations of the telemetry library not yet shut down.  Used to
    run the wrappers on concrete inputs. *)

Record script : Type := mk_script {
  create_status : nvrtcResult;
  compile_status : nvrtcResult;
  query_status : nvrtcResult;
  text : string;
  init_status : nvmlReturn_t;
  lookup_status : nvmlReturn_t;
  driver_status : CUresult;
  file : option string
}.

Definition scripted (s : script) : native Z :=
  fun X c =>
    match c in call X return Z -> X * Z with
    | nvrtcCreateProgram _ _ _ _ _ =>
        fun w => ((create_status s, if create_status s =? 0 then 4096 else 0), w)
    | nvrtcDestroyProgram _ => fun w => ((NVRTC_SUCCESS, 0), w)
    | nvrtcCompileProgram _ _ _ => fun w => (compile_status s, w)
    | nvrtcGetPTXSize _ | nvrtcGetCUBINSize _ | nvrtcGetProgramLogSize _ =>
        fun w => ((query_status s, N.of_nat (String.length (text s))), w)
    | nvrtcGetPTX _ | nvrtcGetCUBIN _ | nvrtcGetProgramLog _ =>
        fun w => ((query_status s, list_ascii_of_string (text s)), w)
    | nvmlInit =>
        fun w => (init_status s, if init_status s =? 0 then w + 1 else w)
    | nvmlShutdown => fun w => (NVML_SUCCESS, w - 1)
    | nvmlDeviceGetHandleByIndex _ | nvmlDeviceGetHandleByUUID _ =>
        fun w => ((lookup_status s, if lookup_status s =? 0 then 8192 else 0), w)
    | nvmlDeviceGetFieldValues _ _ values => fun w => ((NVML_SUCCESS, values), w)
    | cuDeviceGetUuid _ => fun w => ((driver_status s, "GPU-0"%string), w)
    | cuMemoryAllocation _ _ _ =>
        fun w => ((driver_status s, if driver_status s =? 0 then 12288 else 0), w)
    | ifstream_contents _ =>
        fun w => (match file s with Some t => drained t | None => not_open end, w)
    | cerr_write _ => fun w => (tt, w)
    end.

(** Every call succeeds; nothing to read. *)
Definition all_success : script :=
  mk_script 0 0 0 "" 0 0 0 None.

(** A native side on which every file opens and cannot be read, as when the
    name is that of a directory; everything else succeeds. *)
Definition unreadable_files : native Z :=
  fun X c =>
    match c in call X return Z -> X * Z with
    | ifstream_contents _ => fun w => (read_failure, w)
    | c' => scripted all_success _ c'
    end.

(* ================================================================= *)
(** * Properties *)

(** ** Running programs *)

Lemma run_bind {W A B : Type} (lib : native W) (m : M A) (f : A -> M B) (w : W) :
  run lib (bind m f) w =
  let '(t, o, w1) := run lib m w in
  match o with
  | Returned a => let '(t2, o2, w2) := run lib (f a) w1 in ((t ++ t2)%list, o2, w2)
  | Raised e => (t, Raised e, w1)
  | Terminated => (t, Terminated, w1)
  end.
Proof.
  revert w; induction m as [a | e | | X c k IH]; intro w; simpl.
  - destruct (run lib (f a) w) as [[t2 o2] w2]; reflexivity.
  - reflexivity.
  - reflexivity.
  - destruct (lib X c w) as [x w1].
    rewrite IH.
    destruct (run lib (k x) w1) as [[t o] w2].
    destruct o as [a | e | ]; try reflexivity.
    destruct (run lib (f a) w2) as [[t2 o2] w3]; reflexivity.
Qed.

Lemma run_try_catch {W A : Type} (lib : native W) (m : M A)
    (h : exn -> option (M A)) (w : W) :
  run lib (try_catch m h) w =
  let '(t, o, w1) := run lib m w in
  match o with
  | Raised e =>
      match h e with
      | Some handler =>
          let '(t2, o2, w2) := run lib handler w1 in ((t ++ t2)%list, o2, w2)
      | None => (t, Raised e, w1)
      end
  | _ => (t, o, w1)
  end.
Proof.
  revert w; induction m as [a | e | | X c k IH]; intro w; simpl.
  - reflexivity.
  - destruct (h e) as [handler |]; [| reflexivity].
    destruct (run lib handler w) as [[t2 o2] w2]; reflexivity.
  - reflexivity.
  - destruct (lib X c w) as [x w1].
    rewrite IH.
    destruct (run lib (k x) w1) as [[t o] w2].
    destruct o as [a | e | ]; try reflexivity.
    destruct (h e) as [handler |]; [| reflexivity].
    destruct (run lib handler w2) as [[t2 o2] w3]; reflexivity.
Qed.

Lemma run_native_call {W X : Type} (lib : native W) (c : call X) (w : W) :
  run lib (native_call c) w =
  ([Event c (fst (lib X c w))], Returned (fst (lib X c w)), snd (lib X c w)).
Proof.
  unfold native_call; simpl. destruct (lib X c w); reflexivity.
Qed.

Lemma checkNvrtcCall_success : checkNvrtcCall NVRTC_SUCCESS = Ret tt.
Proof. reflexivity. Qed.

Lemma checkNvrtcCall_failure (result : nvrtcResult) :
  result <> NVRTC_SUCCESS ->
  checkNvrtcCall result = Throw (ThrowNvrtc (mk_nvrtc_Error result)).
Proof.
  intro H. unfold checkNvrtcCall.
  destruct (Z.eqb_spec result NVRTC_SUCCESS) as [E | _]; [contradiction | reflexivity].
Qed.

Lemma checkNvmlCall_success : checkNvmlCall NVML_SUCCESS = Ret tt.
Proof. reflexivity. Qed.

Lemma checkNvmlCall_failure (result : nvmlReturn_t) :
  result <> NVML_SUCCESS ->
  checkNvmlCall result = Throw (ThrowNvml (mk_nvml_Error result)).
Proof.
  intro H. unfold checkNvmlCall.
  destruct (Z.eqb_spec result NVML_SUCCESS) as [E | _]; [contradiction | reflexivity].
Qed.

(** ** The error translation facade *)

(** C1.  A check function given its family's success code returns without
    calling anything and leaves the world as it was; given any other code it
    throws, without calling anything, an error whose conversion operator
    gives back exactly the code passed in and whose [what] is the vendor's
    string for that code.  This holds for [checkNvrtcCall] and for
    [checkNvmlCall]. *)
Theorem check_call_translates_status
    (nvmlErrorString : nvmlReturn_t -> string)
    (nvrtcGetErrorString : nvrtcResult -> string)
    (W : Type) (lib : native W) (w : W) (result : Z) :
  run lib (checkNvrtcCall NVRTC_SUCCESS) w = ([], Returned tt, w)
  /\ run lib (checkNvmlCall NVML_SUCCESS) w = ([], Returned tt, w)
  /\ (result <> NVRTC_SUCCESS ->
      exists error : nvrtc_Error,
        run lib (checkNvrtcCall result) w = ([], Raised (ThrowNvrtc error), w)
        /\ operator_nvrtcResult error = result
        /\ nvrtc_Error_what nvrtcGetErrorString error = nvrtcGetErrorString result)
  /\ (result <> NVML_SUCCESS ->
      exists error : nvml_Error,
        run lib (checkNvmlCall result) w = ([], Raised (ThrowNvml error), w)
        /\ operator_nvmlReturn_t error = result
        /\ nvml_Error_what nvmlErrorString error = nvmlErrorString result).
Proof.
  repeat split.
  - intro H. exists (mk_nvrtc_Error result).
    rewrite (checkNvrtcCall_failure result H). repeat split.
  - intro H. exists (mk_nvml_Error result).
    rewrite (checkNvmlCall_failure result H). repeat split.
Qed.

(** The theorem at status 6 ([NVRTC_ERROR_COMPILATION], [NVML_ERROR_NOT_FOUND]). *)
Lemma check_call_translates_status_witness :
  (exists error : nvrtc_Error,
     run (scripted all_success) (checkNvrtcCall NVRTC_ERROR_COMPILATION) 0
       = ([], Raised (ThrowNvrtc error), 0)
     /\ operator_nvrtcResult error = NVRTC_ERROR_COMPILATION
     /\ nvrtc_Error_what (fun _ => "nvrtc"%string) error = "nvrtc"%string)
  /\ (exists error : nvml_Error,
     run (scripted all_success) (checkNvmlCall NVML_ERROR_NOT_FOUND) 0
       = ([], Raised (ThrowNvml error), 0)
     /\ operator_nvmlReturn_t error = NVML_ERROR_NOT_FOUND
     /\ nvml_Error_what (fun _ => "nvml"%string) error = "nvml"%string).
Proof.
  destruct (check_call_translates_status
              (fun _ => "nvml"%string) (fun _ => "nvrtc"%string)
              Z (scripted all_success) 0 6) as (_ & _ & Hrtc & Hml).
  split; [apply Hrtc | apply Hml]; discriminate.
Defined.

(** ** Buffers keep the size they were resized to *)

Lemma resize_list_length {A : Type} (d : A) (l : list A) (n : nat) :
  List.length (resize_list d l n) = n.
Proof.
  unfold resize_list.
  rewrite length_app, length_firstn, repeat_length. lia.
Qed.

Lemma store_list_length {A : Type} (l written : list A) :
  List.length (store_list l written) = List.length l.
Proof.
  unfold store_list.
  rewrite length_app, length_firstn, length_skipn. lia.
Qed.

Lemma string_of_list_ascii_length (l : list ascii) :
  String.length (string_of_list_ascii l) = List.length l.
Proof.
  induction l as [| c l IH]; simpl; [reflexivity | now rewrite IH].
Qed.

(** The two facts about a buffer type the pattern relies on. *)
Class BufferLaws (B : Type) `{Buffer B} : Prop := {
  buf_size_resize : forall (b : B) (n : nat), buf_size (buf_resize b n) = n;
  buf_size_store : forall (b : B) (written : list ascii),
      buf_size (buf_store b written) = buf_size b
}.

#[export] Instance vector_BufferLaws : BufferLaws std_vector_char.
Proof.
  split; simpl; intros.
  - apply resize_list_length.
  - apply store_list_length.
Qed.

#[export] Instance string_BufferLaws : BufferLaws string.
Proof.
  split; simpl; intros.
  - now rewrite string_of_list_ascii_length, resize_list_length.
  - rewrite string_of_list_ascii_length, store_list_length.
    rewrite <- (string_of_list_ascii_length (list_ascii_of_string b)).
    now rewrite string_of_list_ascii_of_string.
Qed.

Lemma size_then_fetch_run {W B : Type} `{BufferLaws B} (lib : native W)
    (query_size : call (nvrtcResult * size_t))
    (fetch : call (nvrtcResult * list ascii)) (w : W) :
  two_call_run lib query_size fetch w
    (run lib (size_then_fetch (B := B) query_size fetch) w).
Proof.
  unfold two_call_run, size_then_fetch, native_call; simpl.
  destruct (lib _ query_size w) as [[s1 size] w1].
  destruct (lib _ fetch w1) as [[s2 contents] w2] eqn:Hfetch.
  unfold checkNvrtcCall.
  destruct (negb (s1 =? NVRTC_SUCCESS)); simpl; [reflexivity |].
  rewrite Hfetch.
  destruct (negb (s2 =? NVRTC_SUCCESS)); simpl; [reflexivity |].
  eexists; split; [reflexivity |].
  rewrite buf_size_store, buf_size_resize.
  apply N2Nat.id.
Qed.

(** ** The query operations *)


(** [getPTX] on a native side whose text is ["ptx"]: two calls, a value of
    three characters. *)
Example getPTX_scripted :
  run (scripted (mk_script 0 0 0 "ptx" 0 0 0 None))
      (nvrtc.getPTX (nvrtc.mk_Program 4096)) 0
  = ([Event (nvrtcGetPTXSize 4096) (0, 3%N);
      Event (nvrtcGetPTX 4096) (0, list_ascii_of_string "ptx")],
     Returned "ptx"%string, 0).
Proof. reflexivity. Qed.

(** A library that writes fewer characters than it announced leaves the rest
    of the buffer as [resize] made it. *)
Example store_short_write :
  buf_store (buf_resize (buf_empty : string) 3) (list_ascii_of_string "a")
  = String "a" (String zero (String zero EmptyString)).
Proof. reflexivity. Qed.

(** ** A failed compilation *)

(** C4.  When the native compilation reports a status other than success,
    [compile] throws the error of exactly that status after that one native
    call, and nothing has destroyed or changed the program object: [getLog]
    on the same object, from the world the failed compilation left, is the
    ordinary size-then-fetch query of the log.  The test's handler (catch,
    [getLog], write it out, rethrow) therefore writes the log the library
    hands out and ends with the original error. *)
Theorem failed_compile_keeps_log_retrievable
    (W : Type) (lib : native W) (w w1 : W) (self : nvrtc.Program)
    (options : list string) (status : nvrtcResult) :
  lib _ (compile_call self options) w = (status, w1) ->
  status <> NVRTC_SUCCESS ->
  let prog := nvrtc.program self in
  let error := ThrowNvrtc (mk_nvrtc_Error status) in
  run lib (nvrtc.compile self options) w
    = ([Event (compile_call self options) status], Raised error, w1)
  /\ two_call_run lib (nvrtcGetProgramLogSize prog) (nvrtcGetProgramLog prog) w1
       (run lib (nvrtc.getLog self) w1)
  /\ (forall (t : list event) (log : string) (w2 : W),
        run lib (nvrtc.getLog self) w1 = (t, Returned log, w2) ->
        run lib (test_vector_add.compile_or_log self options) w
          = ((Event (compile_call self options) status :: t
              ++ [Event (cerr_write log) tt])%list,
             Raised error,
             snd (lib _ (cerr_write log) w2))).
Proof.
  intros Hcompile Hstatus prog error.
  assert (Hrun : run lib (nvrtc.compile self options) w
                 = ([Event (compile_call self options) status], Raised error, w1)).
  { unfold nvrtc.compile, native_call; simpl.
    fold (compile_call self options). rewrite Hcompile.
    rewrite (checkNvrtcCall_failure status Hstatus). reflexivity. }
  split; [exact Hrun | split].
  - apply (size_then_fetch_run (B := string)).
  - intros t log w2 Hlog.
    unfold test_vector_add.compile_or_log.
    rewrite run_try_catch, Hrun. cbv beta iota. unfold error at 1.
    rewrite run_bind, Hlog.
    rewrite run_bind, run_native_call. cbn [run].
    destruct (lib unit (cerr_write log) w2) as [[] w3]. reflexivity.
Qed.

(** The theorem on a native side where compilation fails with
    [NVRTC_ERROR_COMPILATION] and the log reads ["error: x"]. *)
Lemma failed_compile_keeps_log_retrievable_witness :
  let lib := scripted (mk_script 0 NVRTC_ERROR_COMPILATION 0 "error: x" 0 0 0 None) in
  let self := nvrtc.mk_Program 4096 in
  run lib (nvrtc.compile self []) 0
    = ([Event (compile_call self []) NVRTC_ERROR_COMPILATION],
       Raised (ThrowNvrtc (mk_nvrtc_Error NVRTC_ERROR_COMPILATION)), 0)
  /\ run lib (test_vector_add.compile_or_log self []) 0
    = ([Event (compile_call self []) NVRTC_ERROR_COMPILATION;
        Event (nvrtcGetProgramLogSize 4096) (0, 8%N);
        Event (nvrtcGetProgramLog 4096) (0, list_ascii_of_string "error: x");
        Event (cerr_write "error: x") tt],
       Raised (ThrowNvrtc (mk_nvrtc_Error NVRTC_ERROR_COMPILATION)), 0).
Proof.
  intros lib self.
  destruct (failed_compile_keeps_log_retrievable Z lib 0 0 self []
              NVRTC_ERROR_COMPILATION eq_refl ltac:(discriminate))
    as (Hrun & _ & Hhandler).
  split; [exact Hrun |].
  exact (Hhandler _ "error: x"%string 0 eq_refl).
Defined.

(** ** Which operations check their statuses *)

Ltac answer lib :=
  match goal with
  | |- context [lib ?X ?c ?w] =>
      let x := fresh "x" in
      let w' := fresh "w" in
      destruct (lib X c w) as [x w'];
      try (destruct x as [? ?])
  end.

Ltac check_status :=
  match goal with
  | |- context [negb (?r =? ?s)] => destruct (Z.eqb_spec r s); cbn
  end.

Ltac settle_failure :=
  unfold ev_failure; cbn;
  unfold nvrtc_failure, nvml_failure, cu_failure;
  repeat match goal with
    | E : ?r = _ |- context [?r =? _] => rewrite E; cbn
    | N : ?r <> ?s |- context [?r =? ?s] =>
        destruct (Z.eqb_spec r s); [contradiction | cbn]
    end;
  intro; congruence.

Ltac failure_cases :=
  unfold trace_of, outcome_of; cbn;
  let H := fresh "Hin" in
  intro H;
  repeat (destruct H as [<- | H]; [settle_failure |]);
  destruct H.

Ltac checked lib :=
  cbn; repeat (answer lib; cbn; try check_status); failure_cases.

Lemma Program_from_source_checked (src name : string)
    (headers includeNames : list string) :
  checks_every_status (nvrtc.Program_from_source src name headers includeNames).
Proof.
  intros W lib w e x. unfold nvrtc.Program_from_source, native_call, checkNvrtcCall.
  checked lib.
Qed.

Lemma Program_from_file_checked (filename : string) :
  checks_every_status (nvrtc.Program_from_file filename).
Proof.
  intros W lib w e x. unfold nvrtc.Program_from_file, native_call, checkNvrtcCall.
  cbn. destruct (lib _ (ifstream_contents filename) w) as [[| text |] w1];
    checked lib.
Qed.

Lemma compile_checked (self : nvrtc.Program) (options : list string) :
  checks_every_status (nvrtc.compile self options).
Proof.
  intros W lib w e x. unfold nvrtc.compile, native_call, checkNvrtcCall.
  checked lib.
Qed.

Lemma size_then_fetch_checked {B : Type} `{Buffer B}
    (query_size : call (nvrtcResult * size_t))
    (fetch : call (nvrtcResult * list ascii)) :
  (forall x, reported_failure query_size x = nvrtc_failure (fst x)) ->
  (forall x, reported_failure fetch x = nvrtc_failure (fst x)) ->
  checks_every_status (size_then_fetch (B := B) query_size fetch).
Proof.
  intros Hq Hf W lib w e x. unfold size_then_fetch, native_call, checkNvrtcCall.
  cbn. repeat (answer lib; cbn; try check_status);
    unfold trace_of, outcome_of; cbn;
    intro Hin;
    repeat (destruct Hin as [<- | Hin];
            [unfold ev_failure; cbn; rewrite ?Hq, ?Hf; cbn; settle_failure |]);
    destruct Hin.
Qed.

Lemma Device_from_index_checked (index : Z) :
  checks_every_status (nvml.Device_from_index index).
Proof.
  intros W lib w e x. unfold nvml.Device_from_index, native_call, checkNvmlCall.
  checked lib.
Qed.

Lemma getFieldValues_checked (self : nvml.Device) (valuesCount : Z)
    (values : list nvmlFieldValue_t) :
  checks_every_status (nvml.getFieldValues self valuesCount values).
Proof.
  intros W lib w e x. unfold nvml.getFieldValues, native_call, checkNvmlCall.
  checked lib.
Qed.

Lemma getPTX_checked (self : nvrtc.Program) :
  checks_every_status (nvrtc.getPTX self).
Proof. apply (size_then_fetch_checked (B := string)); reflexivity. Qed.

Lemma getCUBIN_checked (self : nvrtc.Program) :
  checks_every_status (nvrtc.getCUBIN self).
Proof. apply (size_then_fetch_checked (B := std_vector_char)); reflexivity. Qed.

Lemma getLog_checked (self : nvrtc.Program) :
  checks_every_status (nvrtc.getLog self).
Proof. apply (size_then_fetch_checked (B := string)); reflexivity. Qed.

(** C2.  The constructor [nvml::Device(cu::Device&)] run where the telemetry
    library initialises, the driver hands out the identifier, and the lookup
    by identifier answers [NVML_ERROR_NOT_FOUND]: the constructor returns an
    object as if the lookup had succeeded, so this operation does not pass
    every status through the check function. *)
Theorem Device_from_cu_Device_discards_status :
  let lib := scripted (mk_script 0 0 0 "" 0 NVML_ERROR_NOT_FOUND 0 None) in
  let ctor := nvml.Device_from_cu_Device (cu.mk_Device 0) in
  run lib ctor 0
    = ([Event nvmlInit NVML_SUCCESS;
        Event (cuDeviceGetUuid 0) (CUDA_SUCCESS, "GPU-0"%string);
        Event (nvmlDeviceGetHandleByUUID "GPU-0") (NVML_ERROR_NOT_FOUND, 0)],
       Returned (nvml.mk_Device 0), 1)
  /\ ~ checks_every_status ctor.
Proof.
  intros lib ctor. split; [reflexivity |].
  intro Hchecked.
  specialize (Hchecked Z lib 0
                (Event (nvmlDeviceGetHandleByUUID "GPU-0") (NVML_ERROR_NOT_FOUND, 0))
                (ThrowNvml (mk_nvml_Error NVML_ERROR_NOT_FOUND))).
  cbn in Hchecked.
  assert (Habsurd : Returned (nvml.mk_Device 0)
                    = Raised (ThrowNvml (mk_nvml_Error NVML_ERROR_NOT_FOUND)))
    by (apply Hchecked; [right; right; left |]; reflexivity).
  discriminate Habsurd.
Qed.

(** ** Construction failures and what they leave behind *)

Lemma Program_from_source_leaves_nothing (src name : string)
    (headers includeNames : list string) :
  leaves_nothing_on_failure
    (nvrtc.Program_from_source src name headers includeNames).
Proof.
  intros W lib w x.
  unfold nvrtc.Program_from_source, native_call, checkNvrtcCall, trace_of, outcome_of.
  cbn. answer lib. cbn.
  destruct (Z.eqb_spec n NVRTC_SUCCESS) as [| Hfailed]; cbn; [discriminate |].
  intros _. destruct (Z.eqb_spec n NVRTC_SUCCESS); [contradiction | reflexivity].
Qed.

Lemma Program_from_file_leaves_nothing (filename : string) :
  leaves_nothing_on_failure (nvrtc.Program_from_file filename).
Proof.
  intros W lib w x.
  unfold nvrtc.Program_from_file, native_call, checkNvrtcCall, trace_of, outcome_of.
  cbn. destruct (lib _ (ifstream_contents filename) w) as [[| text |] w1]; cbn;
    [| | reflexivity].
  all: answer lib; cbn;
    destruct (Z.eqb_spec n NVRTC_SUCCESS) as [| Hfailed]; cbn; [discriminate |];
    intros _; destruct (Z.eqb_spec n NVRTC_SUCCESS); [contradiction | reflexivity].
Qed.

(** C3.  The constructor [nvml::Device(int)] run where the telemetry library
    initialises and the lookup by index answers
    [NVML_ERROR_INVALID_ARGUMENT]: the constructor throws after the successful
    [nvmlInit]; a block declaring such an object runs no destructor, since no
    object was constructed, so [nvmlShutdown] is never called and one
    initialisation stays outstanding. *)
Theorem Device_from_index_leaves_initialisation :
  let lib := scripted (mk_script 0 0 0 "" 0 NVML_ERROR_INVALID_ARGUMENT 0 None) in
  let ctor := nvml.Device_from_index 7 in
  let block := scoped ctor nvml.Device_destroy (fun _ => Ret tt) in
  let failed (A : Type) : list event * outcome A * Z :=
    ([Event nvmlInit NVML_SUCCESS;
      Event (nvmlDeviceGetHandleByIndex 7) (NVML_ERROR_INVALID_ARGUMENT, 0)],
     Raised (ThrowNvml (mk_nvml_Error NVML_ERROR_INVALID_ARGUMENT)), 1) in
  run lib ctor 0 = failed nvml.Device
  /\ run lib block 0 = failed unit
  /\ outstanding (trace_of (run lib block 0)) = 1
  /\ ~ leaves_nothing_on_failure ctor.
Proof.
  intros lib ctor block failed. repeat split.
  intro Hnothing.
  specialize (Hnothing Z lib 0
                (ThrowNvml (mk_nvml_Error NVML_ERROR_INVALID_ARGUMENT)) eq_refl).
  discriminate Hnothing.
Qed.

(** The same block when the lookup succeeds: the destructor runs and the
    initialisation is undone. *)
Example Device_block_balanced :
  let lib := scripted all_success in
  let block :=
    scoped (nvml.Device_from_index 0) nvml.Device_destroy (fun _ => Ret tt) in
  run lib block 0
    = ([Event nvmlInit NVML_SUCCESS;
        Event (nvmlDeviceGetHandleByIndex 0) (NVML_SUCCESS, 8192);
        Event nvmlShutdown NVML_SUCCESS],
       Returned tt, 0)
  /\ outstanding (trace_of (run lib block 0)) = 0.
Proof. split; reflexivity. Qed.

(** ** The device memory typing policy *)

Lemma DeviceMemory_new_other_tag (rejected : CUresult) (W : Type)
    (lib : native W) (w : W) (size : size_t) (type : CUmemorytype) (flags : Z) :
  type <> cu.CU_MEMORYTYPE_DEVICE ->
  type <> cu.CU_MEMORYTYPE_UNIFIED ->
  run lib (cu.DeviceMemory_new rejected size type flags) w
    = ([], Raised (ThrowCu (mk_cu_Error rejected)), w).
Proof.
  intros Hdevice Hunified. unfold cu.DeviceMemory_new.
  destruct (Z.eqb_spec type cu.CU_MEMORYTYPE_DEVICE); [contradiction |].
  destruct (Z.eqb_spec type cu.CU_MEMORYTYPE_UNIFIED); [contradiction |].
  reflexivity.
Qed.

Lemma DeviceMemory_new_allocates (rejected : CUresult) (W : Type)
    (lib : native W) (w w1 : W) (size : size_t) (type : CUmemorytype)
    (flags : Z) (ptr : CUdeviceptr) :
  (type = cu.CU_MEMORYTYPE_DEVICE /\ flags = 0) \/ type = cu.CU_MEMORYTYPE_UNIFIED ->
  lib _ (cuMemoryAllocation type size flags) w = ((CUDA_SUCCESS, ptr), w1) ->
  run lib (cu.DeviceMemory_new rejected size type flags) w
    = ([Event (cuMemoryAllocation type size flags) (CUDA_SUCCESS, ptr)],
       Returned (cu.mk_DeviceMemory ptr), w1).
Proof.
  intros [[-> ->] | ->] Hlib; unfold cu.DeviceMemory_new, native_call; cbn;
    rewrite Hlib; reflexivity.
Qed.

(** C6.  A device-memory buffer constructed with the array-backed or the
    host-backed memory type throws, whatever the size and the flags, and the
    run makes no native call at all: no allocation was attempted and the
    world is as before. *)
Theorem DeviceMemory_rejects_array_and_host
    (rejected : CUresult) (W : Type) (lib : native W) (w : W)
    (size : size_t) (flags : Z) :
  run lib (cu.DeviceMemory_new rejected size cu.CU_MEMORYTYPE_ARRAY flags) w
    = ([], Raised (ThrowCu (mk_cu_Error rejected)), w)
  /\ run lib (cu.DeviceMemory_new rejected size cu.CU_MEMORYTYPE_HOST flags) w
    = ([], Raised (ThrowCu (mk_cu_Error rejected)), w)
  /\ existsb is_allocation
       (trace_of (run lib (cu.DeviceMemory_new rejected size
                             cu.CU_MEMORYTYPE_ARRAY flags) w)) = false
  /\ existsb is_allocation
       (trace_of (run lib (cu.DeviceMemory_new rejected size
                             cu.CU_MEMORYTYPE_HOST flags) w)) = false.
Proof.
  assert (Harray : run lib (cu.DeviceMemory_new rejected size
                              cu.CU_MEMORYTYPE_ARRAY flags) w
                   = ([], Raised (ThrowCu (mk_cu_Error rejected)), w))
    by (apply DeviceMemory_new_other_tag; discriminate).
  assert (Hhost : run lib (cu.DeviceMemory_new rejected size
                             cu.CU_MEMORYTYPE_HOST flags) w
                  = ([], Raised (ThrowCu (mk_cu_Error rejected)), w))
    by (apply DeviceMemory_new_other_tag; discriminate).
  rewrite Harray, Hhost. repeat split.
Qed.

(** C7.  With the device-resident type and zero flags the constructor goes
    to the native allocation and returns the buffer when that call reports
    success; with the device-resident type and any non-zero flag it throws
    without calling anything; with the unified type and the host-attach or the
    global-attach flag it goes to the native allocation, flags passed along,
    and returns the buffer when that call reports success. *)
Theorem DeviceMemory_flags_only_with_unified
    (rejected : CUresult) (W : Type) (lib : native W) (w : W)
    (size : size_t) (flags : Z) :
  (forall (ptr : CUdeviceptr) (w1 : W),
      lib _ (cuMemoryAllocation cu.CU_MEMORYTYPE_DEVICE size 0) w
        = ((CUDA_SUCCESS, ptr), w1) ->
      run lib (cu.DeviceMemory_new rejected size cu.CU_MEMORYTYPE_DEVICE 0) w
        = ([Event (cuMemoryAllocation cu.CU_MEMORYTYPE_DEVICE size 0)
              (CUDA_SUCCESS, ptr)],
           Returned (cu.mk_DeviceMemory ptr), w1))
  /\ (flags <> 0 ->
      run lib (cu.DeviceMemory_new rejected size cu.CU_MEMORYTYPE_DEVICE flags) w
        = ([], Raised (ThrowCu (mk_cu_Error rejected)), w))
  /\ (flags = cu.CU_MEM_ATTACH_HOST \/ flags = cu.CU_MEM_ATTACH_GLOBAL ->
      forall (ptr : CUdeviceptr) (w1 : W),
        lib _ (cuMemoryAllocation cu.CU_MEMORYTYPE_UNIFIED size flags) w
          = ((CUDA_SUCCESS, ptr), w1) ->
        run lib (cu.DeviceMemory_new rejected size cu.CU_MEMORYTYPE_UNIFIED flags) w
          = ([Event (cuMemoryAllocation cu.CU_MEMORYTYPE_UNIFIED size flags)
                (CUDA_SUCCESS, ptr)],
             Returned (cu.mk_DeviceMemory ptr), w1)).
Proof.
  split; [| split].
  - intros ptr w1 Hlib. apply DeviceMemory_new_allocates; auto.
  - intro Hflags. unfold cu.DeviceMemory_new. cbn.
    destruct (Z.eqb_spec flags 0); [contradiction | reflexivity].
  - intros _ ptr w1 Hlib. apply DeviceMemory_new_allocates; auto.
Qed.

(** The theorem at 4096 bytes with the global-attach flag, every native
    call succeeding. *)
Lemma DeviceMemory_flags_only_with_unified_witness :
  let lib := scripted all_success in
  run lib (cu.DeviceMemory_new 1 4096%N cu.CU_MEMORYTYPE_DEVICE 0) 0
    = ([Event (cuMemoryAllocation cu.CU_MEMORYTYPE_DEVICE 4096%N 0) (CUDA_SUCCESS, 12288)],
       Returned (cu.mk_DeviceMemory 12288), 0)
  /\ run lib (cu.DeviceMemory_new 1 4096%N cu.CU_MEMORYTYPE_DEVICE
               cu.CU_MEM_ATTACH_GLOBAL) 0
    = ([], Raised (ThrowCu (mk_cu_Error 1)), 0)
  /\ run lib (cu.DeviceMemory_new 1 4096%N cu.CU_MEMORYTYPE_UNIFIED
               cu.CU_MEM_ATTACH_GLOBAL) 0
    = ([Event (cuMemoryAllocation cu.CU_MEMORYTYPE_UNIFIED 4096%N
                 cu.CU_MEM_ATTACH_GLOBAL) (CUDA_SUCCESS, 12288)],
       Returned (cu.mk_DeviceMemory 12288), 0).
Proof.
  intro lib.
  destruct (DeviceMemory_flags_only_with_unified 1 Z lib 0 4096%N
              cu.CU_MEM_ATTACH_GLOBAL) as (Hdevice & Hflags & Hunified).
  split; [| split].
  - apply Hdevice. reflexivity.
  - apply Hflags. discriminate.
  - apply Hunified; [right |]; reflexivity.
Defined.

(** ** The constructor that reads a file *)

(** C10.  For every file name, on every native side: when the file cannot be
    opened, [Program(filename)] takes the empty string for the source text,
    and when it opens and reads to its end, the text read; it then creates the
    program from that text with the file name as the program's name, zero
    headers and null header arrays, returns the program when
    [nvrtcCreateProgram] reports success and throws the error of its status
    otherwise.  A failure to open the file is therefore never thrown.  When a
    read of the opened file fails, [std::ios_base::failure] leaves the
    constructor and no native call is made. *)
Theorem Program_from_file_outcomes
    (W : Type) (lib : native W) (w : W) (filename : string) :
  let '(ifs, w1) := lib _ (ifstream_contents filename) w in
  match ifs with
  | read_failure =>
      run lib (nvrtc.Program_from_file filename) w
        = ([Event (ifstream_contents filename) read_failure],
           Raised ThrowIosFailure, w1)
  | _ =>
      let source := match ifs with drained text => text | _ => EmptyString end in
      let create :=
        nvrtcCreateProgram (c_str source) (c_str filename) 0 nullptr nullptr in
      let '(status, prog, w2) := lib _ create w1 in
      run lib (nvrtc.Program_from_file filename) w
        = ([Event (ifstream_contents filename) ifs; Event create (status, prog)],
           (if status =? NVRTC_SUCCESS then Returned (nvrtc.mk_Program prog)
            else Raised (ThrowNvrtc (mk_nvrtc_Error status))),
           w2)
  end.
Proof.
  unfold nvrtc.Program_from_file, native_call, checkNvrtcCall. cbn.
  destruct (lib _ (ifstream_contents filename) w) as [[| text |] w1]; cbn;
    [| | reflexivity].
  - destruct (lib _ (nvrtcCreateProgram _ _ 0 nullptr nullptr) w1)
      as [[status prog] w2]. cbn.
    destruct (status =? NVRTC_SUCCESS); reflexivity.
  - destruct (lib _ (nvrtcCreateProgram _ _ 0 nullptr nullptr) w1)
      as [[status prog] w2]. cbn.
    destruct (status =? NVRTC_SUCCESS); reflexivity.
Qed.

(** A file that opens and cannot be read: the constructor throws
    [std::ios_base::failure] before any native call.  So it is not the case
    that, for every file that yields no text, the constructor goes on to
    create the program from the empty string and ends by the status of
    [nvrtcCreateProgram] alone. *)
Lemma Program_from_unreadable_file_throws :
  run unreadable_files (nvrtc.Program_from_file "/tmp") 0
    = ([Event (ifstream_contents "/tmp") read_failure],
       Raised ThrowIosFailure, 0)
  /\ ~ (forall (W : Type) (lib : native W) (w : W) (filename : string),
        (forall text : string,
            fst (lib _ (ifstream_contents filename) w) <> drained text) ->
        exists (status : nvrtcResult) (prog : nvrtcProgram) (w' : W),
          run lib (nvrtc.Program_from_file filename) w
          = ([Event (ifstream_contents filename)
                (fst (lib _ (ifstream_contents filename) w));
              Event (nvrtcCreateProgram EmptyString (c_str filename) 0
                       nullptr nullptr) (status, prog)],
             (if status =? NVRTC_SUCCESS then Returned (nvrtc.mk_Program prog)
              else Raised (ThrowNvrtc (mk_nvrtc_Error status))),
             w')).
Proof.
  split; [reflexivity |].
  intro Hclaim.
  destruct (Hclaim Z unreadable_files 0 "/tmp"%string)
    as (status & prog & w' & Hrun).
  - intros text. cbn. discriminate.
  - apply (f_equal (fun r => List.length (trace_of r))) in Hrun.
    discriminate Hrun.
Qed.

(** A file that is not there: the program is created from the empty text. *)
Example Program_from_missing_file :
  run (scripted all_success) (nvrtc.Program_from_file "missing.cu") 0
  = ([Event (ifstream_contents "missing.cu") not_open;
      Event (nvrtcCreateProgram "" "missing.cu" 0 nullptr nullptr)
        (NVRTC_SUCCESS, 4096)],
     Returned (nvrtc.mk_Program 4096), 0).
Proof. reflexivity. Qed.

(** A file that is there: the program is created from its text. *)
Example Program_from_present_file :
  run (scripted (mk_script 0 0 0 "" 0 0 0 (Some "kernel"%string)))
      (nvrtc.Program_from_file "k.cu") 0
  = ([Event (ifstream_contents "k.cu") (drained "kernel");
      Event (nvrtcCreateProgram "kernel" "k.cu" 0 nullptr nullptr)
        (NVRTC_SUCCESS, 4096)],
     Returned (nvrtc.mk_Program 4096), 0).
Proof. reflexivity. Qed.

(** ** Destructors *)

(** A destructor whose native release call reports a failure throws inside
    a [noexcept] function: the process ends through [std::terminate]. *)
Example Program_destroy_failure_terminates (W : Type) (w : W) :
  let lib : native W :=
    fun X c w =>
      (match c in call X return X with
       | nvrtcDestroyProgram prog => (NVRTC_ERROR_COMPILATION, prog)
       | c' => fst (scripted all_success _ c' 0)
       end, w) in
  run lib (nvrtc.Program_destroy (nvrtc.mk_Program 4096)) w
  = ([Event (nvrtcDestroyProgram 4096) (NVRTC_ERROR_COMPILATION, 4096)],
     Terminated, w).
Proof. reflexivity. Qed.

(** Construction followed at once by destruction, every call succeeding. *)
Example Program_block_round_trip :
  let block :=
    scoped (nvrtc.Program_from_source "kernel" "k.cu" [] [])
      nvrtc.Program_destroy (fun _ => Ret tt) in
  outcome_of (run (scripted all_success) block 0) = Returned tt
  /\ outstanding (trace_of (run (scripted all_success) block 0)) = 0.
Proof. split; reflexivity. Qed.

(* ================================================================= *)
(** * Further properties of the wrappers *)

(** ** No status is dropped, no error is invented *)

(** X1.  Every operation of [nvrtc.hpp] other than the destructor passes each
    status it receives through [checkNvrtcCall]: on every native side a
    non-success status in the run is the error the operation throws. *)
Theorem nvrtc_operations_check_every_status
    (self : nvrtc.Program) (src name filename : string)
    (headers includeNames options : list string) :
  checks_every_status (nvrtc.Program_from_source src name headers includeNames)
  /\ checks_every_status (nvrtc.Program_from_file filename)
  /\ checks_every_status (nvrtc.compile self options)
  /\ checks_every_status (nvrtc.getPTX self)
  /\ checks_every_status (nvrtc.getCUBIN self)
  /\ checks_every_status (nvrtc.getLog self).
Proof.
  repeat split.
  - apply Program_from_source_checked.
  - apply Program_from_file_checked.
  - apply compile_checked.
  - apply getPTX_checked.
  - apply getCUBIN_checked.
  - apply getLog_checked.
Qed.

(** X2.  [Device(int)] and [getFieldValues] of [nvml.hpp] pass each status they
    receive through [checkNvmlCall]. *)
Theorem nvml_index_and_fields_check_every_status
    (self : nvml.Device) (index valuesCount : Z)
    (values : list nvmlFieldValue_t) :
  checks_every_status (nvml.Device_from_index index)
  /\ checks_every_status (nvml.getFieldValues self valuesCount values).
Proof.
  split.
  - apply Device_from_index_checked.
  - apply getFieldValues_checked.
Qed.

Ltac name_failure :=
  unfold ev_failure; cbn;
  unfold nvrtc_failure, nvml_failure, cu_failure;
  repeat match goal with
    | N : ?r <> ?s |- context [?r =? ?s] =>
        destruct (Z.eqb_spec r s); [contradiction | cbn]
    end;
  reflexivity.

Ltac reported lib :=
  unfold throws_only_reported, trace_of, outcome_of; intros W lib w;
  cbn; repeat (answer lib; cbn; try check_status);
  try exact I;
  first
    [ solve [eexists; split; [left; reflexivity | name_failure]]
    | solve [eexists; split; [right; left; reflexivity | name_failure]]
    | solve [eexists; split; [right; right; left; reflexivity | name_failure]] ].

Lemma Device_from_index_reported (index : Z) :
  throws_only_reported (nvml.Device_from_index index).
Proof.
  unfold nvml.Device_from_index, native_call, checkNvmlCall. reported lib.
Qed.

Lemma getFieldValues_reported (self : nvml.Device) (valuesCount : Z)
    (values : list nvmlFieldValue_t) :
  throws_only_reported (nvml.getFieldValues self valuesCount values).
Proof.
  unfold nvml.getFieldValues, native_call, checkNvmlCall. reported lib.
Qed.

(** X4.  [Device(int)] and [getFieldValues] of [nvml.hpp] never throw of their
    own accord and never end the process: whatever they throw is the error of a
    non-success status that a native call of the same run answered. *)
Theorem nvml_index_and_fields_throw_only_reported
    (self : nvml.Device) (index valuesCount : Z)
    (values : list nvmlFieldValue_t) :
  throws_only_reported (nvml.Device_from_index index)
  /\ throws_only_reported (nvml.getFieldValues self valuesCount values).
Proof.
  split.
  - apply Device_from_index_reported.
  - apply getFieldValues_reported.
Qed.

(** ** Object lifetime *)

Lemma run_unwind {W A : Type} (lib : native W) (m : M A) (fin : M unit) (w : W) :
  run lib (unwind m fin) w =
  let '(t, o, w1) := run lib m w in
  match o with
  | Terminated => (t, Terminated, w1)
  | _ =>
      let '(t2, o2, w2) := run lib fin w1 in
      ((t ++ t2)%list,
       match o2 with
       | Returned _ => o
       | Raised e => Raised e
       | Terminated => Terminated
       end, w2)
  end.
Proof.
  revert w; induction m as [a | e | | X c k IH]; intro w; cbn [unwind run].
  - rewrite run_bind. destruct (run lib fin w) as [[t2 o2] w2].
    destruct o2; cbn; rewrite ?app_nil_r; reflexivity.
  - rewrite run_bind. destruct (run lib fin w) as [[t2 o2] w2].
    destruct o2; cbn; rewrite ?app_nil_r; reflexivity.
  - reflexivity.
  - destruct (lib X c w) as [x w1]. rewrite IH.
    destruct (run lib (k x) w1) as [[t o] w2].
    destruct o; try reflexivity;
      destruct (run lib fin w2) as [[t2 o2] w3]; reflexivity.
Qed.

Lemma outstanding_app (t1 t2 : list event) :
  outstanding (t1 ++ t2) = outstanding t1 + outstanding t2.
Proof.
  induction t1 as [| e t1 IH]; cbn [outstanding app]; [reflexivity | lia].
Qed.

Lemma Device_destroy_run {W : Type} (lib : native W)
    (w : W) (device : nvml.Device) :
  let '(status, w1) := lib _ nvmlShutdown w in
  run lib (nvml.Device_destroy device) w
    = ([Event nvmlShutdown status],
       (if status =? NVML_SUCCESS then Returned tt else Terminated), w1).
Proof.
  unfold nvml.Device_destroy, native_call, checkNvmlCall. cbn.
  destruct (lib _ nvmlShutdown w) as [status w1]. cbn.
  destruct (status =? NVML_SUCCESS); reflexivity.
Qed.

Lemma Program_destroy_run {W : Type} (lib : native W)
    (w : W) (program : nvrtc.Program) :
  let '(status, cleared, w1) :=
    lib _ (nvrtcDestroyProgram (nvrtc.program program)) w in
  run lib (nvrtc.Program_destroy program) w
    = ([Event (nvrtcDestroyProgram (nvrtc.program program)) (status, cleared)],
       (if status =? NVRTC_SUCCESS then Returned tt else Terminated), w1).
Proof.
  unfold nvrtc.Program_destroy, native_call, checkNvrtcCall. cbn.
  destruct (lib _ (nvrtcDestroyProgram (nvrtc.program program)) w)
    as [[status cleared] w1]. cbn.
  destruct (status =? NVRTC_SUCCESS); reflexivity.
Qed.

(** X5.  The destructors never throw.  [~Program] makes its one native call and
    returns when [nvrtcDestroyProgram] reports success; on any other status
    the exception raised by the check leaves a [noexcept] destructor, which
    ends the process.  [~Device] does the same with [nvmlShutdown]. *)
Theorem destructors_return_or_terminate (W : Type) (lib : native W) (w : W)
    (program : nvrtc.Program) (device : nvml.Device) :
  (let '(status, cleared, w1) :=
     lib _ (nvrtcDestroyProgram (nvrtc.program program)) w in
   run lib (nvrtc.Program_destroy program) w
     = ([Event (nvrtcDestroyProgram (nvrtc.program program)) (status, cleared)],
        (if status =? NVRTC_SUCCESS then Returned tt else Terminated), w1))
  /\ (let '(status, w1) := lib _ nvmlShutdown w in
      run lib (nvml.Device_destroy device) w
        = ([Event nvmlShutdown status],
           (if status =? NVML_SUCCESS then Returned tt else Terminated), w1)).
Proof.
  split.
  - apply Program_destroy_run.
  - apply Device_destroy_run.
Qed.

(** X6.  When [nvmlInit] itself fails, [Device(int)] throws the error of that
    status at once: the handle lookup is never attempted and the run has
    acquired nothing. *)
Theorem Device_from_index_init_failure (W : Type) (lib : native W) (w w1 : W)
    (index : Z) (status : nvmlReturn_t) :
  lib _ nvmlInit w = (status, w1) ->
  status <> NVML_SUCCESS ->
  run lib (nvml.Device_from_index index) w
    = ([Event nvmlInit status], Raised (ThrowNvml (mk_nvml_Error status)), w1)
  /\ outstanding (trace_of (run lib (nvml.Device_from_index index) w)) = 0.
Proof.
  intros Hinit Hstatus.
  assert (Hrun : run lib (nvml.Device_from_index index) w
                 = ([Event nvmlInit status],
                    Raised (ThrowNvml (mk_nvml_Error status)), w1)).
  { unfold nvml.Device_from_index, native_call. cbn. rewrite Hinit.
    rewrite (checkNvmlCall_failure status Hstatus). reflexivity. }
  split; [exact Hrun |].
  rewrite Hrun. cbn.
  destruct (Z.eqb_spec status NVML_SUCCESS); [contradiction | reflexivity].
Qed.

(** The theorem where [nvmlInit] answers [NVML_ERROR_INVALID_ARGUMENT]. *)
Lemma Device_from_index_init_failure_witness :
  let lib := scripted (mk_script 0 0 0 "" NVML_ERROR_INVALID_ARGUMENT 0 0 None) in
  run lib (nvml.Device_from_index 0) 0
    = ([Event nvmlInit NVML_ERROR_INVALID_ARGUMENT],
       Raised (ThrowNvml (mk_nvml_Error NVML_ERROR_INVALID_ARGUMENT)), 0)
  /\ outstanding (trace_of (run lib (nvml.Device_from_index 0) 0)) = 0.
Proof.
  intro lib.
  apply (Device_from_index_init_failure Z lib 0 0 0 NVML_ERROR_INVALID_ARGUMENT).
  - reflexivity.
  - discriminate.
Defined.

(** X7.  A block that declares a [Device(index)], once construction succeeded:
    however the body ends, by returning or by throwing, [nvmlShutdown] is
    called exactly once after it; when the shutdown succeeds the block ends
    the way the body did and the initialisation is no longer outstanding,
    and when it fails the process is ended. *)
Theorem Device_block_shuts_down (W A : Type) (lib : native W) (w w1 w2 w3 w4 : W)
    (index : Z) (dev : nvmlDevice_t) (body : nvml.Device -> M A)
    (t : list event) (o : outcome A) (status : nvmlReturn_t) :
  lib _ nvmlInit w = (NVML_SUCCESS, w1) ->
  lib _ (nvmlDeviceGetHandleByIndex (to_unsigned_int index)) w1
    = ((NVML_SUCCESS, dev), w2) ->
  run lib (body (nvml.mk_Device dev)) w2 = (t, o, w3) ->
  o <> Terminated ->
  lib _ nvmlShutdown w3 = (status, w4) ->
  let block := scoped (nvml.Device_from_index index) nvml.Device_destroy body in
  run lib block w
    = ((Event nvmlInit NVML_SUCCESS
        :: Event (nvmlDeviceGetHandleByIndex (to_unsigned_int index))
             (NVML_SUCCESS, dev)
        :: t ++ [Event nvmlShutdown status])%list,
       (if status =? NVML_SUCCESS then o else Terminated), w4)
  /\ (status = NVML_SUCCESS ->
      outstanding (trace_of (run lib block w)) = outstanding t).
Proof.
  intros Hinit Hlookup Hbody Hlive Hshutdown block.
  assert (Hctor : run lib (nvml.Device_from_index index) w
                  = ([Event nvmlInit NVML_SUCCESS;
                      Event (nvmlDeviceGetHandleByIndex (to_unsigned_int index))
                        (NVML_SUCCESS, dev)],
                     Returned (nvml.mk_Device dev), w2)).
  { unfold nvml.Device_from_index, native_call. cbn. rewrite Hinit. cbn.
    rewrite Hlookup. reflexivity. }
  assert (Hdtor : run lib (nvml.Device_destroy (nvml.mk_Device dev)) w3
                  = ([Event nvmlShutdown status],
                     (if status =? NVML_SUCCESS then Returned tt else Terminated),
                     w4)).
  { pose proof (Device_destroy_run lib w3 (nvml.mk_Device dev))
      as Haux.
    rewrite Hshutdown in Haux. exact Haux. }
  assert (Hblock : run lib block w
    = ((Event nvmlInit NVML_SUCCESS
        :: Event (nvmlDeviceGetHandleByIndex (to_unsigned_int index))
             (NVML_SUCCESS, dev)
        :: t ++ [Event nvmlShutdown status])%list,
       (if status =? NVML_SUCCESS then o else Terminated), w4)).
  { unfold block, scoped. rewrite run_bind, Hctor. cbv beta iota.
    rewrite run_unwind, Hbody.
    destruct o as [a | x |]; [| | contradiction];
      rewrite Hdtor; destruct (status =? NVML_SUCCESS); reflexivity. }
  split; [exact Hblock |].
  intros ->. rewrite Hblock. unfold trace_of. cbn [fst].
  change (Event nvmlInit NVML_SUCCESS
          :: Event (nvmlDeviceGetHandleByIndex (to_unsigned_int index))
               (NVML_SUCCESS, dev) :: t ++ [Event nvmlShutdown NVML_SUCCESS])%list
    with ([Event nvmlInit NVML_SUCCESS;
           Event (nvmlDeviceGetHandleByIndex (to_unsigned_int index))
             (NVML_SUCCESS, dev)] ++ t ++ [Event nvmlShutdown NVML_SUCCESS])%list.
  rewrite !outstanding_app.
  replace (outstanding
             [Event nvmlInit NVML_SUCCESS;
              Event (nvmlDeviceGetHandleByIndex (to_unsigned_int index))
                (NVML_SUCCESS, dev)]) with 1 by reflexivity.
  replace (outstanding [Event nvmlShutdown NVML_SUCCESS]) with (-1) by reflexivity.
  lia.
Qed.

(** The theorem for a body that throws a driver error, every native call
    succeeding: the shutdown still happens and the body's error comes out. *)
Lemma Device_block_shuts_down_witness :
  let lib := scripted all_success in
  let body := fun _ : nvml.Device => @Throw unit (ThrowCu (mk_cu_Error 1)) in
  let block := scoped (nvml.Device_from_index 0) nvml.Device_destroy body in
  run lib block 0
    = ([Event nvmlInit NVML_SUCCESS;
        Event (nvmlDeviceGetHandleByIndex 0) (NVML_SUCCESS, 8192);
        Event nvmlShutdown NVML_SUCCESS],
       Raised (ThrowCu (mk_cu_Error 1)), 0)
  /\ (NVML_SUCCESS = NVML_SUCCESS ->
      outstanding (trace_of (run lib block 0)) = 0).
Proof.
  intros lib body block.
  apply (Device_block_shuts_down Z unit lib 0 1 1 1 0 0 8192 body []
           (Raised (ThrowCu (mk_cu_Error 1))) NVML_SUCCESS);
    try reflexivity.
  discriminate.
Defined.

(** X8.  A block that declares a [Program(src, name, headers, includeNames)], once
    [nvrtcCreateProgram] succeeded: however the body ends, by returning or by
    throwing, [nvrtcDestroyProgram] is called exactly once after it, on the
    handle the creation produced; when it succeeds the block ends the way the
    body did and the program is no longer outstanding, and when it fails the
    process is ended. *)
Theorem Program_block_destroys (W A : Type) (lib : native W) (w w1 w2 w3 : W)
    (src name : string) (headers includeNames : list string)
    (prog cleared : nvrtcProgram) (body : nvrtc.Program -> M A)
    (t : list event) (o : outcome A) (status : nvrtcResult) :
  let create :=
    nvrtcCreateProgram (c_str src) (c_str name)
      (static_cast_int (Z.of_nat (List.length (map c_str headers))))
      (data (map c_str headers)) (data (map c_str includeNames)) in
  lib _ create w = ((NVRTC_SUCCESS, prog), w1) ->
  run lib (body (nvrtc.mk_Program prog)) w1 = (t, o, w2) ->
  o <> Terminated ->
  lib _ (nvrtcDestroyProgram prog) w2 = ((status, cleared), w3) ->
  let block :=
    scoped (nvrtc.Program_from_source src name headers includeNames)
      nvrtc.Program_destroy body in
  run lib block w
    = ((Event create (NVRTC_SUCCESS, prog)
        :: t ++ [Event (nvrtcDestroyProgram prog) (status, cleared)])%list,
       (if status =? NVRTC_SUCCESS then o else Terminated), w3)
  /\ (status = NVRTC_SUCCESS ->
      outstanding (trace_of (run lib block w)) = outstanding t).
Proof.
  intros create Hcreate Hbody Hlive Hdestroy block.
  assert (Hctor : run lib (nvrtc.Program_from_source src name headers includeNames) w
                  = ([Event create (NVRTC_SUCCESS, prog)],
                     Returned (nvrtc.mk_Program prog), w1)).
  { unfold nvrtc.Program_from_source, native_call. cbn.
    fold create. rewrite Hcreate. reflexivity. }
  assert (Hdtor : run lib (nvrtc.Program_destroy (nvrtc.mk_Program prog)) w2
                  = ([Event (nvrtcDestroyProgram prog) (status, cleared)],
                     (if status =? NVRTC_SUCCESS then Returned tt else Terminated),
                     w3)).
  { pose proof (Program_destroy_run lib w2 (nvrtc.mk_Program prog)) as Haux.
    cbn [nvrtc.program] in Haux. rewrite Hdestroy in Haux. exact Haux. }
  assert (Hblock : run lib block w
    = ((Event create (NVRTC_SUCCESS, prog)
        :: t ++ [Event (nvrtcDestroyProgram prog) (status, cleared)])%list,
       (if status =? NVRTC_SUCCESS then o else Terminated), w3)).
  { unfold block, scoped. rewrite run_bind, Hctor. cbv beta iota.
    rewrite run_unwind, Hbody.
    destruct o as [a | x |]; [| | contradiction];
      rewrite Hdtor; destruct (status =? NVRTC_SUCCESS); reflexivity. }
  split; [exact Hblock |].
  intros ->. rewrite Hblock. unfold trace_of. cbn [fst].
  change (Event create (NVRTC_SUCCESS, prog)
          :: t ++ [Event (nvrtcDestroyProgram prog) (NVRTC_SUCCESS, cleared)])%list
    with ([Event create (NVRTC_SUCCESS, prog)] ++ t
          ++ [Event (nvrtcDestroyProgram prog) (NVRTC_SUCCESS, cleared)])%list.
  rewrite !outstanding_app.
  replace (outstanding [Event create (NVRTC_SUCCESS, prog)]) with 1 by reflexivity.
  replace (outstanding [Event (nvrtcDestroyProgram prog) (NVRTC_SUCCESS, cleared)])
    with (-1) by reflexivity.
  lia.
Qed.

(** The theorem for a body that compiles the program and fails: the program
    is destroyed and the compilation error comes out of the block. *)
Lemma Program_block_destroys_witness :
  let lib := scripted (mk_script 0 NVRTC_ERROR_COMPILATION 0 "" 0 0 0 None) in
  let body := fun program : nvrtc.Program => nvrtc.compile program [] in
  let block :=
    scoped (nvrtc.Program_from_source "kernel" "k.cu" [] [])
      nvrtc.Program_destroy body in
  run lib block 0
    = ([Event (nvrtcCreateProgram "kernel" "k.cu" 0 (data []) (data []))
          (NVRTC_SUCCESS, 4096);
        Event (nvrtcCompileProgram 4096 0 (data [])) NVRTC_ERROR_COMPILATION;
        Event (nvrtcDestroyProgram 4096) (NVRTC_SUCCESS, 0)],
       Raised (ThrowNvrtc (mk_nvrtc_Error NVRTC_ERROR_COMPILATION)), 0)
  /\ (NVRTC_SUCCESS = NVRTC_SUCCESS ->
      outstanding (trace_of (run lib block 0)) = 0).
Proof.
  intros lib body block.
  apply (Program_block_destroys Z unit lib 0 0 0 0 "kernel" "k.cu" [] [] 4096 0 body
           [Event (nvrtcCompileProgram 4096 0 (data [])) NVRTC_ERROR_COMPILATION]
           (Raised (ThrowNvrtc (mk_nvrtc_Error NVRTC_ERROR_COMPILATION)))
           NVRTC_SUCCESS);
    try reflexivity.
  discriminate.
Defined.

(** ** What the query operations return *)

Lemma store_list_resized {A : Type} (d : A) (written : list A) (n : nat) :
  (List.length written <= n)%nat ->
  store_list (resize_list d [] n) written
  = (written ++ repeat d (n - List.length written))%list.
Proof.
  intro Hle. unfold store_list, resize_list.
  rewrite firstn_nil, app_nil_l, Nat.sub_0_r, repeat_length.
  rewrite firstn_all2 by exact Hle.
  f_equal.
  replace n with (List.length written + (n - List.length written))%nat at 1 by lia.
  rewrite repeat_app, skipn_app, repeat_length, Nat.sub_diag.
  rewrite skipn_all2 by (rewrite repeat_length; lia).
  reflexivity.
Qed.

Lemma size_then_fetch_written {W : Type} (lib : native W) (w w1 w2 : W)
    (query_size : call (nvrtcResult * size_t))
    (fetch : call (nvrtcResult * list ascii))
    (size : size_t) (written : list ascii) :
  lib _ query_size w = ((NVRTC_SUCCESS, size), w1) ->
  lib _ fetch w1 = ((NVRTC_SUCCESS, written), w2) ->
  (List.length written <= N.to_nat size)%nat ->
  let padded :=
    (written ++ repeat zero (N.to_nat size - List.length written))%list in
  run lib (size_then_fetch (B := std_vector_char) query_size fetch) w
    = ([Event query_size (NVRTC_SUCCESS, size);
        Event fetch (NVRTC_SUCCESS, written)], Returned padded, w2)
  /\ run lib (size_then_fetch (B := string) query_size fetch) w
    = ([Event query_size (NVRTC_SUCCESS, size);
        Event fetch (NVRTC_SUCCESS, written)],
       Returned (string_of_list_ascii padded), w2).
Proof.
  intros Hsize Hfetch Hle padded.
  unfold size_then_fetch, native_call. cbn -[store_list resize_list].
  rewrite Hsize. cbn -[store_list resize_list].
  rewrite Hfetch. cbn -[store_list resize_list].
  rewrite list_ascii_of_string_of_list_ascii.
  rewrite (store_list_resized zero written (N.to_nat size) Hle).
  split; reflexivity.
Qed.

(** X9.  When both native calls succeed and the library stores no more characters
    than the size it announced, [getPTX], [getCUBIN] and [getLog] return
    exactly the characters the library stored, followed by NUL characters up
    to the announced size; when the library stores as many characters as it
    announced, the value returned is what it stored. *)
Theorem query_operations_return_what_was_stored
    (W : Type) (lib : native W) (w w1 w2 : W) (self : nvrtc.Program)
    (size : size_t) (written : list ascii) :
  (List.length written <= N.to_nat size)%nat ->
  let prog := nvrtc.program self in
  let padded :=
    (written ++ repeat zero (N.to_nat size - List.length written))%list in
  (lib _ (nvrtcGetPTXSize prog) w = ((NVRTC_SUCCESS, size), w1) ->
   lib _ (nvrtcGetPTX prog) w1 = ((NVRTC_SUCCESS, written), w2) ->
   outcome_of (run lib (nvrtc.getPTX self) w)
     = Returned (string_of_list_ascii padded))
  /\ (lib _ (nvrtcGetCUBINSize prog) w = ((NVRTC_SUCCESS, size), w1) ->
      lib _ (nvrtcGetCUBIN prog) w1 = ((NVRTC_SUCCESS, written), w2) ->
      outcome_of (run lib (nvrtc.getCUBIN self) w) = Returned padded)
  /\ (lib _ (nvrtcGetProgramLogSize prog) w = ((NVRTC_SUCCESS, size), w1) ->
      lib _ (nvrtcGetProgramLog prog) w1 = ((NVRTC_SUCCESS, written), w2) ->
      outcome_of (run lib (nvrtc.getLog self) w)
        = Returned (string_of_list_ascii padded))
  /\ (List.length written = N.to_nat size -> padded = written).
Proof.
  intros Hle prog padded. repeat split.
  - intros Hsize Hfetch.
    change (nvrtc.getPTX self)
      with (size_then_fetch (B := string) (nvrtcGetPTXSize prog) (nvrtcGetPTX prog)).
    destruct (size_then_fetch_written lib w w1 w2 _ _ size written Hsize Hfetch Hle)
      as [_ Hstring].
    rewrite Hstring. reflexivity.
  - intros Hsize Hfetch.
    change (nvrtc.getCUBIN self)
      with (size_then_fetch (B := std_vector_char)
              (nvrtcGetCUBINSize prog) (nvrtcGetCUBIN prog)).
    destruct (size_then_fetch_written lib w w1 w2 _ _ size written Hsize Hfetch Hle)
      as [Hvector _].
    rewrite Hvector. reflexivity.
  - intros Hsize Hfetch.
    change (nvrtc.getLog self)
      with (size_then_fetch (B := string)
              (nvrtcGetProgramLogSize prog) (nvrtcGetProgramLog prog)).
    destruct (size_then_fetch_written lib w w1 w2 _ _ size written Hsize Hfetch Hle)
      as [_ Hstring].
    rewrite Hstring. reflexivity.
  - intro Hexact. unfold padded. rewrite Hexact, Nat.sub_diag. cbn.
    apply app_nil_r.
Qed.

(** The theorem on a native side whose text is ["ptx"]. *)
Lemma query_operations_return_what_was_stored_witness :
  let lib := scripted (mk_script 0 0 0 "ptx" 0 0 0 None) in
  let self := nvrtc.mk_Program 4096 in
  outcome_of (run lib (nvrtc.getPTX self) 0) = Returned "ptx"%string
  /\ outcome_of (run lib (nvrtc.getCUBIN self) 0)
     = Returned (list_ascii_of_string "ptx")
  /\ outcome_of (run lib (nvrtc.getLog self) 0) = Returned "ptx"%string.
Proof.
  intros lib self.
  destruct (query_operations_return_what_was_stored Z lib 0 0 0 self 3%N
              (list_ascii_of_string "ptx") ltac:(cbn; lia))
    as (Hptx & Hcubin & Hlog & _).
  split; [| split].
  - apply Hptx; reflexivity.
  - apply Hcubin; reflexivity.
  - apply Hlog; reflexivity.
Defined.

(** ** The test's compile-and-report block *)

(** X10.  When the compilation succeeds the handler is not entered: the block makes
    the one compile call, asks for no log, writes nothing and returns. *)
Theorem compile_or_log_success (W : Type) (lib : native W) (w w1 : W)
    (self : nvrtc.Program) (options : list string) :
  lib _ (compile_call self options) w = (NVRTC_SUCCESS, w1) ->
  run lib (test_vector_add.compile_or_log self options) w
    = ([Event (compile_call self options) NVRTC_SUCCESS], Returned tt, w1).
Proof.
  intro Hcompile. unfold test_vector_add.compile_or_log.
  rewrite run_try_catch.
  assert (Hrun : run lib (nvrtc.compile self options) w
                 = ([Event (compile_call self options) NVRTC_SUCCESS],
                    Returned tt, w1)).
  { unfold nvrtc.compile, native_call; cbn.
    fold (compile_call self options). rewrite Hcompile. reflexivity. }
  rewrite Hrun. reflexivity.
Qed.

Lemma compile_or_log_success_witness :
  run (scripted all_success)
      (test_vector_add.compile_or_log (nvrtc.mk_Program 4096) ["-G"%string]) 0
  = ([Event (nvrtcCompileProgram 4096 1 (data ["-G"%string])) NVRTC_SUCCESS],
     Returned tt, 0).
Proof.
  apply (compile_or_log_success Z (scripted all_success) 0 0
           (nvrtc.mk_Program 4096) ["-G"%string]).
  reflexivity.
Defined.

(** X11.  When the compilation fails and [getLog] throws inside the handler, the
    block ends with the error of [getLog]: nothing is written to [std::cerr]
    and the rethrow of the compilation error is never reached. *)
Theorem compile_or_log_log_failure (W : Type) (lib : native W) (w w1 w2 : W)
    (self : nvrtc.Program) (options : list string) (status : nvrtcResult)
    (t : list event) (x : exn) :
  lib _ (compile_call self options) w = (status, w1) ->
  status <> NVRTC_SUCCESS ->
  run lib (nvrtc.getLog self) w1 = (t, Raised x, w2) ->
  run lib (test_vector_add.compile_or_log self options) w
    = ((Event (compile_call self options) status :: t)%list, Raised x, w2).
Proof.
  intros Hcompile Hstatus Hlog. unfold test_vector_add.compile_or_log.
  rewrite run_try_catch.
  assert (Hrun : run lib (nvrtc.compile self options) w
                 = ([Event (compile_call self options) status],
                    Raised (ThrowNvrtc (mk_nvrtc_Error status)), w1)).
  { unfold nvrtc.compile, native_call; cbn.
    fold (compile_call self options). rewrite Hcompile.
    rewrite (checkNvrtcCall_failure status Hstatus). reflexivity. }
  rewrite Hrun. cbv beta iota.
  rewrite run_bind, Hlog. reflexivity.
Qed.

(** The theorem where compilation fails with [NVRTC_ERROR_COMPILATION] and
    the log queries fail with status 4. *)
Lemma compile_or_log_log_failure_witness :
  run (scripted (mk_script 0 NVRTC_ERROR_COMPILATION 4 "" 0 0 0 None))
      (test_vector_add.compile_or_log (nvrtc.mk_Program 4096) []) 0
  = ([Event (nvrtcCompileProgram 4096 0 (data [])) NVRTC_ERROR_COMPILATION;
      Event (nvrtcGetProgramLogSize 4096) (4, 0%N)],
     Raised (ThrowNvrtc (mk_nvrtc_Error 4)), 0).
Proof.
  apply (compile_or_log_log_failure Z
           (scripted (mk_script 0 NVRTC_ERROR_COMPILATION 4 "" 0 0 0 None))
           0 0 0 (nvrtc.mk_Program 4096) [] NVRTC_ERROR_COMPILATION
           [Event (nvrtcGetProgramLogSize 4096) (4, 0%N)]
           (ThrowNvrtc (mk_nvrtc_Error 4))).
  - reflexivity.
  - discriminate.
  - reflexivity.
Defined.

(** ** What is handed to the compiler *)

Lemma static_cast_int_in_range (z : Z) :
  0 <= z < 2 ^ 31 -> static_cast_int z = z.
Proof.
  intro Hz. unfold static_cast_int.
  rewrite Z.mod_small by lia. lia.
Qed.

(** X12.  [compile] with fewer than 2^31 options makes one native call that is told
    exactly how many options there are and is given them in order, each as a
    C string; it returns when that call reports success and throws the error
    of its status otherwise. *)
Theorem compile_passes_options (W : Type) (lib : native W) (w : W)
    (self : nvrtc.Program) (options : list string) :
  Z.of_nat (List.length options) < 2 ^ 31 ->
  let made :=
    nvrtcCompileProgram (nvrtc.program self) (Z.of_nat (List.length options))
      (data (map c_str options)) in
  let '(status, w1) := lib _ made w in
  run lib (nvrtc.compile self options) w
    = ([Event made status],
       (if status =? NVRTC_SUCCESS then Returned tt
        else Raised (ThrowNvrtc (mk_nvrtc_Error status))), w1).
Proof.
  intros Hcount made.
  unfold nvrtc.compile, native_call, checkNvrtcCall. cbn.
  rewrite length_map, static_cast_int_in_range by lia.
  fold made. destruct (lib _ made w) as [status w1]. cbn.
  destruct (status =? NVRTC_SUCCESS); reflexivity.
Qed.

Lemma compile_passes_options_witness :
  run (scripted all_success)
      (nvrtc.compile (nvrtc.mk_Program 4096) ["-G"; "-lineinfo"]%string) 0
  = ([Event (nvrtcCompileProgram 4096 2 (data ["-G"; "-lineinfo"]%string))
        NVRTC_SUCCESS], Returned tt, 0).
Proof.
  apply (compile_passes_options Z (scripted all_success) 0
           (nvrtc.mk_Program 4096) ["-G"; "-lineinfo"]%string).
  cbn. lia.
Defined.

(** X13.  [Program(src, name, headers, includeNames)] with fewer than 2^31 headers
    makes one native call that is told exactly how many headers there are;
    the include names are handed over as they come, however many there are:
    the constructor does not compare their number with the number of
    headers.  It returns the program holding the handle the library produced
    when the call reports success and throws the error of its status
    otherwise. *)
Theorem Program_from_source_passes_headers (W : Type) (lib : native W) (w : W)
    (src name : string) (headers includeNames : list string) :
  Z.of_nat (List.length headers) < 2 ^ 31 ->
  let made :=
    nvrtcCreateProgram (c_str src) (c_str name) (Z.of_nat (List.length headers))
      (data (map c_str headers)) (data (map c_str includeNames)) in
  let '(status, prog, w1) := lib _ made w in
  run lib (nvrtc.Program_from_source src name headers includeNames) w
    = ([Event made (status, prog)],
       (if status =? NVRTC_SUCCESS then Returned (nvrtc.mk_Program prog)
        else Raised (ThrowNvrtc (mk_nvrtc_Error status))), w1).
Proof.
  intros Hcount made.
  unfold nvrtc.Program_from_source, native_call, checkNvrtcCall. cbn.
  rewrite length_map, static_cast_int_in_range by lia.
  fold made. destruct (lib _ made w) as [[status prog] w1]. cbn.
  destruct (status =? NVRTC_SUCCESS); reflexivity.
Qed.

(** The theorem for one header and no include name. *)
Lemma Program_from_source_passes_headers_witness :
  run (scripted all_success)
      (nvrtc.Program_from_source "kernel" "k.cu" ["#define N 4"%string] []) 0
  = ([Event (nvrtcCreateProgram "kernel" "k.cu" 1
               (data ["#define N 4"%string]) (data []))
        (NVRTC_SUCCESS, 4096)],
     Returned (nvrtc.mk_Program 4096), 0).
Proof.
  apply (Program_from_source_passes_headers Z (scripted all_success) 0
           "kernel" "k.cu" ["#define N 4"%string] []).
  cbn. lia.
Defined.

Lemma c_str_with_NUL (before after : string) :
  c_str (with_NUL before after) = c_str before.
Proof.
  unfold with_NUL.
  induction before as [| c before IH]; cbn.
  - reflexivity.
  - destruct (Ascii.eqb c zero); [reflexivity | now rewrite IH].
Qed.

(** X14.  Source text, program name and options reach the library as C strings,
    so whatever follows a NUL character in one of them is not part of what is
    compiled: a constructor or a [compile] given a text with a NUL in it is
    the same program as one given the text before the NUL. *)
Theorem text_after_NUL_is_dropped (self : nvrtc.Program)
    (before after src name : string)
    (headers includeNames options more : list string) :
  nvrtc.Program_from_source (with_NUL before after) name headers includeNames
    = nvrtc.Program_from_source before name headers includeNames
  /\ nvrtc.Program_from_source src (with_NUL before after) headers includeNames
    = nvrtc.Program_from_source src before headers includeNames
  /\ nvrtc.compile self (options ++ with_NUL before after :: more)
    = nvrtc.compile self (options ++ before :: more).
Proof.
  unfold nvrtc.Program_from_source, nvrtc.compile.
  rewrite !map_app. cbn [map]. rewrite !c_str_with_NUL. repeat split.
Qed.
